(** * The book scraper of [scripts/scraper.py], embedded in Rocq

    The development follows the Python source function by function:
    [get_rating_number], [scrape_books], [scrape_book_details] and [main].

    Conventions of the embedding.
    - A Python [str] is a Rocq [string] holding its UTF-8 encoding, so the
      literals of the source can be written as they are.  Where the code
      looks at characters (white space, digits) the bytes are read as code
      points.
    - A Python [dict] with string keys is a [gmap string _].
    - A document handed back by [BeautifulSoup(..., 'html.parser')] is a
      [node] tree; the byte-level HTML parser is not part of the model, the
      network oracle returns parsed documents.
    - A Python [float] is kept as the exact decimal value of the literal it
      was read from ([pyfloat]), or as an infinity when that value is beyond
      the range of binary64; rounding inside the range is not modelled.
    - Exceptions are values of [exception]; a computation that may raise
      returns [res].  Effects (requests, sleeps, CSV files) are recorded in a
      chronological [trace].  Output on the console is not modelled. *)

From Stdlib Require Import Ascii String QArith.
From stdpp Require Import gmap strings list fin_maps pretty.

Local Open Scope string_scope.
Local Open Scope Z_scope.
Local Open Scope list_scope.

(** ** Code points *)

Module Utf8.

(** The code points of a text, read from its UTF-8 bytes.  [need] counts
    the continuation bytes still expected and [acc] holds the bits read so
    far. *)
Fixpoint decode_go (need : nat) (acc : N) (s : string) : list N :=
  match s with
  | "" => []
  | String c s' =>
      let b := N_of_ascii c in
      match need with
      | O =>
          if (b <? 128)%N then b :: decode_go O 0%N s'
          else if (b <? 224)%N then decode_go 1 (b mod 32)%N s'
          else if (b <? 240)%N then decode_go 2 (b mod 16)%N s'
          else decode_go 3 (b mod 8)%N s'
      | S k =>
          let acc' := (acc * 64 + b mod 64)%N in
          match k with
          | O => acc' :: decode_go O 0%N s'
          | S _ => decode_go k acc' s'
          end
      end
  end.

Definition decode (s : string) : list N := decode_go O 0%N s.

Definition encode_point (cp : N) : string :=
  let byte (n : N) := ascii_of_N n in
  if (cp <? 128)%N then String (byte cp) ""
  else if (cp <? 2048)%N then
    String (byte (192 + cp / 64)%N) (String (byte (128 + cp mod 64)%N) "")
  else if (cp <? 65536)%N then
    String (byte (224 + cp / 4096)%N)
      (String (byte (128 + (cp / 64) mod 64)%N)
         (String (byte (128 + cp mod 64)%N) ""))
  else
    String (byte (240 + cp / 262144)%N)
      (String (byte (128 + (cp / 4096) mod 64)%N)
         (String (byte (128 + (cp / 64) mod 64)%N)
            (String (byte (128 + cp mod 64)%N) ""))).

Definition encode (points : list N) : string :=
  foldr (λ cp s, encode_point cp +:+ s) "" points.

End Utf8.

(** The two tables of the Unicode database (version 14.0, that of
    CPython 3.11) that the code depends on. *)
Module Unicode.

(** [str.isspace] of a code point; it is also the [\s] of [re]. *)
Definition isspace (cp : N) : bool :=
  ((9 <=? cp) && (cp <=? 13) || (28 <=? cp) && (cp <=? 32)
   || (cp =? 133) || (cp =? 160) || (cp =? 5760)
   || (8192 <=? cp) && (cp <=? 8202)
   || (cp =? 8232) || (cp =? 8233) || (cp =? 8239) || (cp =? 8287)
   || (cp =? 12288))%N.

(** The code points of the digit zero of every script; the nine other
    digits of the script follow it. *)
Definition digit_zeros : list N :=
  [ 48; 1632; 1776; 1984; 2406; 2534; 2662; 2790;
    2918; 3046; 3174; 3302; 3430; 3558; 3664; 3792;
    3872; 4160; 4240; 6112; 6160; 6470; 6608; 6784;
    6800; 6992; 7088; 7232; 7248; 42528; 43216; 43264;
    43472; 43504; 43600; 44016; 65296; 66720; 68912; 69734;
    69872; 69942; 70096; 70384; 70736; 70864; 71248; 71360;
    71472; 71904; 72016; 72784; 73040; 73120; 92768; 92864;
    93008; 120782; 120792; 120802; 120812; 120822; 123200; 123632;
    125264; 130032 ]%N.

(** The value of a decimal digit (category Nd). *)
Definition decimal (cp : N) : option Z :=
  (λ zero, Z.of_N (cp - zero))
    <$> List.find (λ zero, (zero <=? cp) && (cp <? zero + 10))%N digit_zeros.

End Unicode.

(** ** Python strings *)

Module Str.

(** What is left of a list of code points after its leading white space. *)
Fixpoint lstrip_points (points : list N) : list N :=
  match points with
  | cp :: points' => if Unicode.isspace cp then lstrip_points points' else points
  | [] => []
  end.

(** [s.strip()] *)
Definition strip (s : string) : string :=
  Utf8.encode
    (reverse (lstrip_points (reverse (lstrip_points (Utf8.decode s))))).

(** [s.replace(old, new)]: the occurrences of [old] are found from the left
    and do not overlap.  [skip] counts the characters of a matched [old]
    still to be dropped. *)
Fixpoint replace_go (old new : string) (skip : nat) (s : string) : string :=
  match s with
  | "" => match old with "" => new | _ => "" end
  | String c s' =>
      match skip with
      | S k => replace_go old new k s'
      | O =>
          if String.prefix old s then
            match old with
            | "" => new +:+ String c (replace_go old new O s')
            | _ => new +:+ replace_go old new (Nat.pred (String.length old)) s'
            end
          else String c (replace_go old new O s')
      end
  end.

Definition replace (s old new : string) : string := replace_go old new O s.


(** The runs of code points between white space; [run] is the run being
    read, last code point first. *)
Fixpoint runs (run : list N) (points : list N) : list (list N) :=
  match points with
  | [] => match run with [] => [] | _ => [reverse run] end
  | cp :: points' =>
      if Unicode.isspace cp
      then match run with [] => [] | _ => [reverse run] end ++ runs [] points'
      else runs (cp :: run) points'
  end.

(** The tokens of a white-space separated attribute value, [\S+]. *)
Definition tokens (s : string) : list string :=
  Utf8.encode <$> runs [] (Utf8.decode s).

(** [sep.join(l)] *)
Fixpoint join (sep : string) (l : list string) : string :=
  match l with
  | [] => ""
  | [x] => x
  | x :: l' => x +:+ sep +:+ join sep l'
  end.

End Str.

(** ** Exceptions and results *)

Inductive exception :=
| AttributeError          (* attribute access on [None] *)
| TypeError               (* subscript of [None] *)
| KeyError (key : string)
| IndexError
| ValueError
| HTTPError (status : Z)  (* [raise_for_status] *)
| ConnectionError         (* any failure of [requests.get] on the wire *)
| MissingSchema.          (* [requests.get] of something that is no URL text *)

Inductive res (A : Type) :=
| Ok (a : A)
| Raise (e : exception).
Arguments Ok {A} a.
Arguments Raise {A} e.

Definition res_bind {A B} (m : res A) (k : A → res B) : res B :=
  match m with Ok a => k a | Raise e => Raise e end.

Declare Scope res_scope.
Delimit Scope res_scope with res.
Notation "'let*' x ':=' m 'in' k" := (res_bind m (λ x, k))
  (at level 10, x name, m at level 100, k at level 200) : res_scope.

(** ** Python floats, as read by [float(str)] *)

Inductive pyfloat :=
| Fin (q : Q)
| Inf (negative : bool)
| NaN.

Module Float.

Definition digit (c : ascii) : option Z :=
  Z.of_nat <$> Ascii.is_nat c.

Definition lower (c : ascii) : ascii :=
  let n := nat_of_ascii c in
  if (65 <=? n)%nat && (n <=? 90)%nat then ascii_of_nat (n + 32) else c.

(** A [digitpart] of the grammar, [digit (["_"] digit)*], read after its
    first digit: the remaining digits of the part and the rest of the input. *)
Fixpoint digits_rest (l : list ascii) : list Z * list ascii :=
  match l with
  | c :: l' =>
      match digit c with
      | Some d => let '(ds, r) := digits_rest l' in (d :: ds, r)
      | None =>
          if decide (c = "_"%char) then
            match l' with
            | c' :: l'' =>
                match digit c' with
                | Some d => let '(ds, r) := digits_rest l'' in (d :: ds, r)
                | None => ([], l)
                end
            | [] => ([], l)
            end
          else ([], l)
      end
  | [] => ([], [])
  end.

(** An optional [digitpart]: [[]] when the input does not start with a digit. *)
Definition digitpart (l : list ascii) : list Z * list ascii :=
  match l with
  | c :: l' =>
      match digit c with
      | Some d => let '(ds, r) := digits_rest l' in (d :: ds, r)
      | None => ([], l)
      end
  | [] => ([], [])
  end.

Definition sign (l : list ascii) : bool * list ascii :=
  match l with
  | "-"%char :: l' => (true, l')
  | "+"%char :: l' => (false, l')
  | _ => (false, l)
  end.

Definition number_of (ds : list Z) : Z :=
  foldl (λ acc d, 10 * acc + d) 0 ds.

(** [exponent ::= ("e" | "E") [sign] digitpart], up to the end of the input. *)
Definition exponent (l : list ascii) : option Z :=
  match l with
  | [] => Some 0
  | c :: l' =>
      if decide (lower c = "e"%char) then
        let '(neg, l1) := sign l' in
        match digitpart l1 with
        | ((_ :: _) as ds, []) =>
            Some (if neg then - number_of ds else number_of ds)
        | _ => None
        end
      else None
  end.

(** [number ::= [digitpart] "." digitpart | digitpart ["."]] followed by an
    optional exponent; the value is [mantissa * 10 ^ (exp - #fraction)]. *)
Definition floatnumber (l : list ascii) : option Q :=
  let '(ip, l1) := digitpart l in
  let '(fp, l2) :=
    match l1 with
    | "."%char :: l1' => digitpart l1'
    | _ => ([], l1)
    end in
  match ip, fp with
  | [], [] => None
  | _, _ =>
      (* "1.e5" and "1." are numbers, ".e5" and "." are not: covered above *)
      e ← exponent l2;
      Some (Qred (inject_Z (number_of (ip ++ fp))
                  * Qpower 10 (e - Z.of_nat (length fp))))
  end.

(** A value of [2 ^ 1024 - 2 ^ 970] or more is rounded beyond the greatest
    float: the result is an infinity. *)
Definition overflow : Q := inject_Z (2 ^ 1024 - 2 ^ 970).

Definition finite (neg : bool) (q : Q) : pyfloat :=
  if Qle_bool overflow q then Inf neg
  else Fin (if neg then Qred (- q) else q).

Definition absfloatvalue (neg : bool) (l : list ascii) : option pyfloat :=
  let w := string_of_list_ascii (lower <$> l) in
  if decide (w = "inf" ∨ w = "infinity") then Some (Inf neg)
  else if decide (w = "nan") then Some NaN
  else q ← floatnumber l; Some (finite neg q).

(** The characters handed to the C parser: an ASCII character stands for
    itself, any other white space for a blank, any other decimal digit for
    its ASCII digit, and anything else for a question mark. *)
Definition to_ascii (cp : N) : ascii :=
  if (cp <? 128)%N then ascii_of_N cp
  else if Unicode.isspace cp then " "%char
  else match Unicode.decimal cp with
       | Some d => ascii_of_N (48 + Z.to_N d)
       | None => "?"%char
       end.

(** The white space of the C locale, taken off at both ends. *)
Definition isspace_c (c : ascii) : bool :=
  match c with
  | "009" | "010" | "011" | "012" | "013" | " " => true
  | _ => false
  end%char.

Fixpoint lstrip_c (l : list ascii) : list ascii :=
  match l with
  | c :: l' => if isspace_c c then lstrip_c l' else l
  | [] => []
  end.

Definition strip_c (l : list ascii) : list ascii :=
  reverse (lstrip_c (reverse (lstrip_c l))).

(** [float(s)]: [None] stands for the [ValueError] of a malformed literal. *)
Definition parse (s : string) : option pyfloat :=
  let '(neg, l) := sign (strip_c (to_ascii <$> Utf8.decode s)) in
  absfloatvalue neg l.

End Float.

Definition float (s : string) : res pyfloat :=
  match Float.parse s with
  | Some f => Ok f
  | None => Raise ValueError
  end.

(** ** Values and dictionaries *)

Inductive value :=
| VStr (s : string)
| VInt (n : Z)
| VFloat (x : pyfloat).

Abbreviation dict := (gmap string value).

(** ** Documents: the tree behind a [BeautifulSoup] object *)

Local Unset Elimination Schemes.
Inductive node :=
| NavigableString (s : string)
| Tag (name : string) (attrs : gmap string string) (contents : list node).
Local Set Elimination Schemes.

Module Bs4.

Definition contents (t : node) : list node :=
  match t with
  | Tag _ _ cs => cs
  | NavigableString _ => []
  end.

(** [t.descendants]: every node below [t], in document order. *)
Fixpoint descendants (t : node) : list node :=
  match t with
  | NavigableString _ => []
  | Tag _ _ cs =>
      (fix below (l : list node) : list node :=
         match l with
         | [] => []
         | c :: l' => c :: descendants c ++ below l'
         end) cs
  end.

(** [t.text]: the strings below [t], concatenated. *)
Fixpoint text (t : node) : string :=
  match t with
  | NavigableString s => s
  | Tag _ _ cs =>
      (fix below (l : list node) : string :=
         match l with
         | [] => ""
         | c :: l' => text c +:+ below l'
         end) cs
  end.

(** The value of the multi-valued attribute [class], split at parse time. *)
Definition class_list (attrs : gmap string string) : option (list string) :=
  Str.tokens <$> attrs !! "class".

(** A [class_] filter matches one of the class tokens, or the tokens joined
    by a blank. *)
Definition class_matches (class_ : string) (attrs : gmap string string) : bool :=
  match class_list attrs with
  | Some toks =>
      bool_decide (class_ ∈ toks) || bool_decide (Str.join " " toks = class_)
  | None => false
  end.

Definition matches (name : string) (class_ : option string) (t : node) : bool :=
  match t with
  | Tag n attrs _ =>
      bool_decide (n = name)
      && match class_ with
         | Some c => class_matches c attrs
         | None => true
         end
  | NavigableString _ => false
  end.

(** [t.find_all(name, class_=...)] *)
Definition find_all (t : node) (name : string) (class_ : option string) : list node :=
  List.filter (matches name class_) (descendants t).

(** [t.find(name, class_=...)], [None] when nothing matches. *)
Definition find (t : node) (name : string) (class_ : option string) : option node :=
  head (find_all t name class_).

(** [t.find(name, recursive=False)]: among the children of [t] only. *)
Definition find_child (t : node) (name : string) : option node :=
  head (List.filter (matches name None) (contents t)).

(** [t[key]] on a tag. *)
Definition getitem (t : node) (key : string) : res string :=
  match t with
  | Tag _ attrs _ =>
      match attrs !! key with
      | Some v => Ok v
      | None => Raise (KeyError key)
      end
  | NavigableString _ => Raise TypeError
  end.

(** [t['class']] on a tag. *)
Definition getclass (t : node) : res (list string) :=
  match t with
  | Tag _ attrs _ =>
      match class_list attrs with
      | Some toks => Ok toks
      | None => Raise (KeyError "class")
      end
  | NavigableString _ => Raise TypeError
  end.

End Bs4.

(** Attribute access and subscripting of a value that may be [None]. *)

Definition dot {A} (o : option node) (f : node → A) : res A :=
  match o with
  | Some t => Ok (f t)
  | None => Raise AttributeError
  end.

Definition subscript {A} (o : option node) (f : node → res A) : res A :=
  match o with
  | Some t => f t
  | None => Raise TypeError
  end.

(** [l[i]] on a list. *)
Definition index {A} (l : list A) (i : nat) : res A :=
  match l !! i with
  | Some x => Ok x
  | None => Raise IndexError
  end.

(** ** [get_rating_number] *)

Definition ratings : gmap string Z :=
  {[ "One" := 1; "Two" := 2; "Three" := 3; "Four" := 4; "Five" := 5 ]}.

Definition get_rating_number (rating_class : string) : Z :=
  default 0 (ratings !! rating_class).

(** ** The body of the item loop of [scrape_books] *)

Local Open Scope res_scope.

(** [float(price_text.replace('£', ''))] *)
Definition price_of (price_text : string) : res pyfloat :=
  float (Str.replace price_text "£" "").

Definition book_record (book : node) : res dict :=
  (* title = book.h3.a['title'] *)
  let* a := dot (Bs4.find book "h3" None) (λ h3, Bs4.find h3 "a" None) in
  let* title := subscript a (λ t, Bs4.getitem t "title") in
  (* price_text = book.find('p', class_='price_color').text *)
  let* price_text := dot (Bs4.find book "p" (Some "price_color")) Bs4.text in
  (* price = float(price_text.replace('£', '')) *)
  let* price := price_of price_text in
  (* rating_class = book.find('p', class_='star-rating')['class'][1] *)
  let* classes := subscript (Bs4.find book "p" (Some "star-rating")) Bs4.getclass in
  let* rating_class := index classes 1 in
  let rating := get_rating_number rating_class in
  (* availability = book.find('p', class_='instock availability').text.strip() *)
  let* availability_text :=
    dot (Bs4.find book "p" (Some "instock availability")) Bs4.text in
  let availability := Str.strip availability_text in
  (* img_url = book.find('img')['src'] *)
  let* img_src := subscript (Bs4.find book "img" None) (λ t, Bs4.getitem t "src") in
  let img_url := "http://books.toscrape.com/" +:+ Str.replace img_src "../" "" in
  (* book_url = book.h3.a['href'] *)
  let* a' := dot (Bs4.find book "h3" None) (λ h3, Bs4.find h3 "a" None) in
  let* href := subscript a' (λ t, Bs4.getitem t "href") in
  let book_url :=
    "http://books.toscrape.com/catalogue/" +:+ Str.replace href "../" "" in
  Ok ({[ "titulo" := VStr title;
         "precio" := VFloat price;
         "rating" := VInt rating;
         "disponibilidad" := VStr availability;
         "imagen_url" := VStr img_url;
         "libro_url" := VStr book_url ]} : dict).

(** ** Effects: the network, the clock and the file system *)

Record response := Response { status_code : Z; content : node }.

Inductive event :=
| Get (url : string)                       (* [requests.get(url)] *)
| Sleep (seconds : Q)                      (* [time.sleep(seconds)] *)
| ToCsv (path : string) (rows : list dict) (* [df.to_csv(path, ...)] *).

Abbreviation trace := (list event).

(** The URLs requested so far, oldest first. *)
Definition requests_of (tr : trace) : list string :=
  omap (λ e, match e with Get url => Some url | _ => None end) tr.

(** The remote site: what the request number [k] of the run (counted from 0)
    receives for a URL.  [Raise] is a failure of the request itself. *)
Abbreviation internet := (nat → string → res response).

(** A computation over local variables of type [L] and the trace: it ends
    with a value or with an exception, and in both cases with the locals and
    the trace as they were left. *)
Definition M (L A : Type) : Type := L → trace → res A * L * trace.

Definition ret {L A} (a : A) : M L A := λ l tr, (Ok a, l, tr).

Definition bind {L A B} (m : M L A) (k : A → M L B) : M L B :=
  λ l tr,
    match m l tr with
    | (Ok a, l', tr') => k a l' tr'
    | (Raise e, l', tr') => (Raise e, l', tr')
    end.

Declare Scope eff_scope.
Delimit Scope eff_scope with eff.
Notation "'let!' x ':=' m 'in' k" := (bind m (λ x, k))
  (at level 10, x name, m at level 100, k at level 200) : eff_scope.
Notation "m ';;' k" := (bind m (λ _, k))
  (at level 100, k at level 200, right associativity) : eff_scope.

(** A pure step that may raise. *)
Definition lift {L A} (r : res A) : M L A := λ l tr, (r, l, tr).

Definition update {L} (f : L → L) : M L unit := λ l tr, (Ok tt, f l, tr).

Definition emit {L} (e : event) : M L unit := λ l tr, (Ok tt, l, tr ++ [e]).

(** [try: body except Exception as e: handler(e)] *)
Definition try_except {L A} (body : M L A) (handler : exception → M L A) : M L A :=
  λ l tr,
    match body l tr with
    | (Ok a, l', tr') => (Ok a, l', tr')
    | (Raise e, l', tr') => handler e l' tr'
    end.

(** [for x in xs: body(x)] *)
Fixpoint for_ {L X} (xs : list X) (body : X → M L unit) : M L unit :=
  match xs with
  | [] => ret tt
  | x :: xs' => bind (body x) (λ _, for_ xs' body)
  end.

(** [range(a, b)] *)
Definition range (a b : Z) : list Z := seqZ a (b - a).

Section Scraper.

Variable web : internet.

Local Open Scope eff_scope.

(** [requests.get(url)] *)
Definition requests_get {L} (url : string) : M L response :=
  λ l tr, (web (length (requests_of tr)) url, l, tr ++ [Get url]).

(** [response.raise_for_status()] *)
Definition raise_for_status (r : response) : res unit :=
  if bool_decide (400 ≤ status_code r < 600)
  then Raise (HTTPError (status_code r))
  else Ok tt.

Definition time_sleep {L} (seconds : Q) : M L unit := emit (Sleep seconds).

(** *** [scrape_books] *)

Definition base_url (page : Z) : string :=
  "http://books.toscrape.com/catalogue/page-" +:+ pretty page +:+ ".html".

(** [for book in books: ...], appending to the local variable [all_books]. *)
Definition scrape_books_items (books : list node) : M (list dict) unit :=
  for_ books (λ book,
    let! record := lift (book_record book) in
    update (λ all_books, all_books ++ [record])).

(** One turn of [for page in range(1, num_pages + 1)]. *)
Definition scrape_books_page (page : Z) : M (list dict) unit :=
  let url := base_url page in
  try_except
    (let! response := requests_get url in
     lift (raise_for_status response);;
     let soup := content response in
     let books := Bs4.find_all soup "article" (Some "product_pod") in
     scrape_books_items books;;
     time_sleep (1 # 2))
    (λ e, ret tt (* continue *)).

(** [scrape_books(num_pages)]: the rows of the returned frame and the trace
    the run leaves. *)
Definition scrape_books (num_pages : Z) (tr : trace) : list dict * trace :=
  let '(_, all_books, tr') :=
    for_ (range 1 (num_pages + 1)) scrape_books_page [] tr in
  (all_books, tr').

(** *** [scrape_book_details] *)

(** [for row in rows: ...], filling [product_info]. *)
Fixpoint table_rows (rows : list node) (product_info : gmap string string)
  : res (gmap string string) :=
  match rows with
  | [] => Ok product_info
  | row :: rows' =>
      let* header := dot (Bs4.find row "th" None) Bs4.text in
      let* value := dot (Bs4.find row "td" None) Bs4.text in
      table_rows rows' (<[header := value]> product_info)
  end%res.

(** [table = soup.find('table', class_='table-striped')] and the
    dictionary [product_info] built from it. *)
Definition product_info_of (soup : node) : res (gmap string string) :=
  match Bs4.find soup "table" (Some "table-striped") with
  | Some table => table_rows (Bs4.find_all table "tr" None) ∅
  | None => Ok ∅
  end.

(** [category = soup.find('ul', class_='breadcrumb').find_all('a')[2].text] *)
Definition category_of (soup : node) : res string :=
  let* links :=
    dot (Bs4.find soup "ul" (Some "breadcrumb")) (λ ul, Bs4.find_all ul "a" None) in
  let* link := index links 2 in
  Ok (Bs4.text link).

(** [description_tag = soup.find('article', class_='product_page')
                           .find('p', recursive=False)]
    [description = description_tag.text if description_tag else "Sin descripción"] *)
Definition description_of (soup : node) : res string :=
  let* description_tag :=
    dot (Bs4.find soup "article" (Some "product_page"))
        (λ article, Bs4.find_child article "p") in
  Ok match description_tag with
     | Some tag => Bs4.text tag
     | None => "Sin descripción"
     end.

(** What follows the request inside the [try] block. *)
Definition book_details (soup : node) : res dict :=
  let* category := category_of soup in
  let* description := description_of soup in
  let* product_info := product_info_of soup in
  Ok ({[ "categoria" := VStr category;
         "descripcion" := VStr description;
         "upc" := VStr (default "" (product_info !! "UPC"));
         "impuestos" := VStr (default "" (product_info !! "Tax"));
         "stock" := VStr (default "" (product_info !! "Availability")) ]} : dict).

(** [requests.get] takes the text of a URL; anything else is refused before
    a request is sent. *)
Definition url_text (v : value) : res string :=
  match v with
  | VStr url => Ok url
  | _ => Raise MissingSchema
  end.

(** [scrape_book_details(book_url)]: [None] is Python's [None]. *)
Definition scrape_book_details {L} (book_url : value) : M L (option dict) :=
  try_except
    (let! url := lift (url_text book_url) in
     let! response := requests_get url in
     lift (raise_for_status response);;
     let soup := content response in
     let! details := lift (book_details soup) in
     ret (Some details))
    (λ e, ret None).

End Scraper.

(** ** The part of pandas that [main] uses *)

Record DataFrame := { columns : gset string; rows : list dict }.

Module Pd.

(** [len(df)] *)
Definition len (df : DataFrame) : Z := Z.of_nat (length (rows df)).

(** [df[key]]: the column as a series. *)
Definition getitem (df : DataFrame) (key : string) : res (list value) :=
  if bool_decide (key ∈ columns df)
  then Ok (omap (λ row : dict, row !! key) (rows df))
  else Raise (KeyError key).

(** [df.head(n)] for [n >= 0] *)
Definition head (df : DataFrame) (n : nat) : DataFrame :=
  {| columns := columns df; rows := take n (rows df) |}.

(** [row[key]] on a row handed out by [iterrows]. *)
Definition row_getitem (row : dict) (key : string) : res value :=
  match row !! key with
  | Some v => Ok v
  | None => Raise (KeyError key)
  end.

(** [pd.DataFrame(data)] for a list of dictionaries: a column per key met,
    a row per dictionary, [NaN] where a dictionary lacks a key.  The order
    of the columns is not modelled. *)
Definition fill (cols : gset string) (d : dict) : dict :=
  d ∪ gset_to_gmap (VFloat NaN) cols.

Definition DataFrame (data : list dict) : DataFrame :=
  let cols := ⋃ (dom <$> data) in
  {| columns := cols; rows := fill cols <$> data |}.

End Pd.

(** Reductions of a numeric series.  A column of texts is outside this
    model: [numbers] answers [TypeError] for it, as [mean] does. *)
Module Series.

Definition number (v : value) : res pyfloat :=
  match v with
  | VInt n => Ok (Fin (inject_Z n))
  | VFloat x => Ok x
  | VStr _ => Raise TypeError
  end.

Fixpoint numbers (l : list value) : res (list pyfloat) :=
  match l with
  | [] => Ok []
  | v :: l' =>
      let* x := number v in
      let* xs := numbers l' in
      Ok (x :: xs)
  end%res.

Definition isna (x : pyfloat) : bool :=
  match x with NaN => true | _ => false end.

(** [skipna=True], the default of the reductions. *)
Definition dropna (xs : list pyfloat) : list pyfloat :=
  List.filter (λ x, negb (isna x)) xs.

Definition add (x y : pyfloat) : pyfloat :=
  match x, y with
  | Fin a, Fin b => Fin (Qred (a + b))
  | NaN, _ | _, NaN => NaN
  | Inf s, Inf t => if Bool.eqb s t then Inf s else NaN
  | Inf s, Fin _ | Fin _, Inf s => Inf s
  end.

Definition div_count (x : pyfloat) (n : nat) : pyfloat :=
  match x with
  | Fin a => Fin (Qred (a / inject_Z (Z.of_nat n)))
  | _ => x
  end.

Definition leb (x y : pyfloat) : bool :=
  match x, y with
  | Fin a, Fin b => Qle_bool a b
  | Inf true, _ | _, Inf false => true
  | _, _ => false
  end.

Definition least (x y : pyfloat) : pyfloat := if leb x y then x else y.
Definition greatest (x y : pyfloat) : pyfloat := if leb x y then y else x.

(** The reductions answer [NaN] on a series without numbers. *)
Definition reduce (f : pyfloat → pyfloat → pyfloat) (xs : list pyfloat) : pyfloat :=
  match dropna xs with
  | [] => NaN
  | x :: xs' => foldl f x xs'
  end.

Definition mean (l : list value) : res value :=
  (let* xs := numbers l in
   Ok (VFloat (div_count (reduce add xs) (length (dropna xs)))))%res.

Definition min (l : list value) : res value :=
  (let* xs := numbers l in Ok (VFloat (reduce least xs)))%res.

Definition max (l : list value) : res value :=
  (let* xs := numbers l in Ok (VFloat (reduce greatest xs)))%res.

End Series.

(** ** [main] *)

Section Main.

Variable web : internet.

(** The dictionary [stats]. *)
Definition main_stats (df_books : DataFrame) : res dict :=
  (let total_libros := Pd.len df_books in
   let* precio := Pd.getitem df_books "precio" in
   let* precio_promedio := Series.mean precio in
   let* precio' := Pd.getitem df_books "precio" in
   let* precio_minimo := Series.min precio' in
   let* precio'' := Pd.getitem df_books "precio" in
   let* precio_maximo := Series.max precio'' in
   let* rating := Pd.getitem df_books "rating" in
   let* rating_promedio := Series.mean rating in
   Ok ({[ "total_libros" := VInt total_libros;
          "precio_promedio" := precio_promedio;
          "precio_minimo" := precio_minimo;
          "precio_maximo" := precio_maximo;
          "rating_promedio" := rating_promedio ]} : dict))%res.

(** [if details:]: [None] and the empty dictionary are false. *)
Definition truthy (details : option dict) : bool :=
  match details with
  | Some d => negb (bool_decide (d = ∅))
  | None => false
  end.

Local Open Scope eff_scope.

(** One turn of [for idx, row in df_books.head(10).iterrows()]; the local
    variable is [detailed_books]. *)
Definition main_detail_row (row : dict) : M (list dict) unit :=
  let! book_url := lift (Pd.row_getitem row "libro_url") in
  let! details := scrape_book_details web book_url in
  (if truthy details then
     let! titulo := lift (Pd.row_getitem row "titulo") in
     let! precio := lift (Pd.row_getitem row "precio") in
     let! rating := lift (Pd.row_getitem row "rating") in
     update (λ detailed_books,
       detailed_books
         ++ [default ∅ details
               ∪ {[ "titulo" := titulo; "precio" := precio; "rating" := rating ]}])
   else ret tt);;
  time_sleep (1 # 2).

(** The loop over the first [limit] rows; [main] runs it with 10. *)
Definition main_detailed_books (limit : nat) (df_books : DataFrame)
  : M (list dict) unit :=
  for_ (rows (Pd.head df_books limit)) main_detail_row.

Definition to_csv {L} (df : DataFrame) (path : string) : M L unit :=
  emit (ToCsv path (rows df)).

Definition main_body : M (list dict) unit :=
  let! df_books := (λ l tr,
    let '(all_books, tr') := scrape_books web 5 tr in
    (Ok (Pd.DataFrame all_books), l, tr')) in
  to_csv df_books "books_data.csv";;
  let! stats := lift (main_stats df_books) in
  main_detailed_books 10 df_books;;
  let! detailed_books := (λ l tr, (Ok l, l, tr)) in
  match detailed_books with
  | [] => ret tt
  | _ => to_csv (Pd.DataFrame detailed_books) "books_detailed.csv"
  end.

(** [main()], started on an empty trace: how it ends and what it did. *)
Definition main : res unit * trace :=
  let '(r, _, tr) := main_body [] [] in (r, tr).

End Main.

(** * Vocabulary of the specification *)

(** The mapping of the star words as the specification words it. *)
Definition rating_of_token (token : string) : Z :=
  if decide (token = "One") then 1
  else if decide (token = "Two") then 2
  else if decide (token = "Three") then 3
  else if decide (token = "Four") then 4
  else if decide (token = "Five") then 5
  else 0.


(** [parse_catalog_page(doc)]: what the item loop of [scrape_books] appends
    for one fetched document, started on an empty list. *)
Definition parse_catalog_page (soup : node) : list dict :=
  (scrape_books_items (Bs4.find_all soup "article" (Some "product_pod")) [] []).1.2.

(** The records of the items in front of the first item that raises, and
    how the loop over the items ends. *)
Fixpoint records_until_error (books : list node) : list dict * res unit :=
  match books with
  | [] => ([], Ok tt)
  | book :: books' =>
      match book_record book with
      | Ok d => let '(ds, r) := records_until_error books' in (d :: ds, r)
      | Raise e => ([], Raise e)
      end
  end.

(** What one answer of the site contributes to the catalog. *)
Definition page_records (answer : res response) : list dict :=
  match answer with
  | Ok response =>
      match raise_for_status response with
      | Ok _ => parse_catalog_page (content response)
      | Raise _ => []
      end
  | Raise _ => []
  end.

(** Whether the turn for a page reaches the end of its [try] block. *)
Definition page_completes (answer : res response) : bool :=
  match answer with
  | Ok response =>
      match raise_for_status response with
      | Ok _ =>
          match (records_until_error
                   (Bs4.find_all (content response) "article" (Some "product_pod"))).2 with
          | Ok _ => true
          | Raise _ => false
          end
      | Raise _ => false
      end
  | Raise _ => false
  end.

(** The default reading of an item: its record, or nothing when it raises. *)
Definition record_of (book : node) : option dict :=
  match book_record book with
  | Ok d => Some d
  | Raise _ => None
  end.


(** A trace keeps the politeness delay when a sleep stands between any two
    requests; [slept] tells whether one was met since the last request. *)
Fixpoint polite_from (slept : bool) (tr : trace) : bool :=
  match tr with
  | [] => true
  | Get _ :: tr' => slept && polite_from false tr'
  | Sleep _ :: tr' => polite_from true tr'
  | ToCsv _ _ :: tr' => polite_from slept tr'
  end.

Definition polite (tr : trace) : bool := polite_from true tr.

(** The [try] block of [scrape_book_details] as a function of what the site
    answers to the request number [k]. *)
Definition details_attempt (web : internet) (k : nat) (book_url : value) : res dict :=
  (let* url := url_text book_url in
   let* response := web k url in
   let* _ := raise_for_status response in
   book_details (content response))%res.

Definition detail_keys : gset string :=
  {[ "categoria"; "descripcion"; "upc"; "impuestos"; "stock" ]}.

Definition enriched_keys : gset string :=
  {[ "titulo"; "precio"; "rating" ]} ∪ detail_keys.

(** No row of the product table has a header cell reading [key]. *)
Definition no_row_with_header (soup : node) (key : string) : Prop :=
  ∀ table row th,
    Bs4.find soup "table" (Some "table-striped") = Some table →
    row ∈ Bs4.find_all table "tr" None →
    Bs4.find row "th" None = Some th →
    Bs4.text th ≠ key.

(** A row that has the columns the detail loop reads. *)
Definition book_row (row : dict) : Prop :=
  is_Some (row !! "libro_url") ∧ is_Some (row !! "titulo")
  ∧ is_Some (row !! "precio") ∧ is_Some (row !! "rating").

(** The request a row of the detail loop sends, when its URL is a text. *)
Definition row_request (row : dict) : option string :=
  match row !! "libro_url" with
  | Some (VStr url) => Some url
  | _ => None
  end.

(** The number of requests the turn for a row sends. *)
Definition row_requests (row : dict) : nat :=
  match row_request row with
  | Some _ => 1
  | None => 0
  end.

(** What the detail loop makes of a row whose turn starts after [k]
    requests: nothing when the attempt on its detail page, which meets the
    site at request number [k], fails; else the three fields it keeps of the
    row together with the details of that attempt. *)
Definition row_outcome (web : internet) (k : nat) (row : dict)
    (out : option dict) : Prop :=
  ∃ book_url,
    row !! "libro_url" = Some book_url
    ∧ match out with
      | Some d =>
          ∃ details titulo precio rating,
            details_attempt web k book_url = Ok details
            ∧ row !! "titulo" = Some titulo
            ∧ row !! "precio" = Some precio
            ∧ row !! "rating" = Some rating
            ∧ d = details ∪ {[ "titulo" := titulo; "precio" := precio;
                               "rating" := rating ]}
      | None => ∃ e, details_attempt web k book_url = Raise e
      end.

(** The outcomes of the rows of the detail loop, in the order of the rows,
    when the loop starts after [k] requests: each row has the outcome of its
    own attempt, numbered after the requests of the rows in front of it. *)
Inductive row_outcomes (web : internet)
  : nat → list dict → list (option dict) → Prop :=
| row_outcomes_nil k : row_outcomes web k [] []
| row_outcomes_cons k row out rows outs :
    row_outcome web k row out →
    row_outcomes web (k + row_requests row) rows outs →
    row_outcomes web k (row :: rows) (out :: outs).

(** * Sample documents and sites *)

Module Fixture.

Definition el (name : string) (attrs : list (string * string))
    (contents : list node) : node :=
  Tag name (list_to_map attrs) contents.

(** An item of a catalog page, as the site lays it out. *)
Definition product_pod (title price_text rating_class href src : string) : node :=
  el "article" [("class", "product_pod")]
    [ el "div" [("class", "image_container")]
        [ el "a" [("href", href)]
            [ el "img" [("src", src); ("alt", title); ("class", "thumbnail")] [] ] ];
      el "p" [("class", rating_class)] [ el "i" [("class", "icon-star")] [] ];
      el "h3" [] [ el "a" [("href", href); ("title", title)] [ NavigableString title ] ];
      el "div" [("class", "product_price")]
        [ el "p" [("class", "price_color")] [ NavigableString price_text ];
          el "p" [("class", "instock availability")]
            [ el "i" [("class", "icon-ok")] [];
              NavigableString "
  In stock
" ] ] ].

Definition catalog_page (items : list node) : node :=
  Tag "[document]" ∅
    [ el "html" [] [ el "body" [] [ el "ol" [("class", "row")] items ] ] ].

Definition book_a : node :=
  product_pod "A Light in the Attic" "£51.77" "star-rating Three"
    "a-light-in-the-attic_1000/index.html" "../media/cache/2c/da/a.jpg".
Definition book_b : node :=
  product_pod "Tipping the Velvet" "£53.74" "star-rating One"
    "tipping-the-velvet_999/index.html" "../media/cache/26/0c/b.jpg".
Definition book_c : node :=
  product_pod "Soumission" "£50.10" "star-rating One"
    "soumission_998/index.html" "../media/cache/3e/ef/c.jpg".
(** An item whose price text is no number. *)
Definition book_free : node :=
  product_pod "Sharp Objects" "free" "star-rating Four"
    "sharp-objects_997/index.html" "../media/cache/32/51/d.jpg".

Definition page_one : node := catalog_page [book_a; book_b].
Definition page_two : node := catalog_page [book_c].
(** A page whose second item of three is malformed. *)
Definition page_flawed : node := catalog_page [book_a; book_free; book_c].

(** A detail page: the breadcrumb, the description when there is one, and
    the rows of the product table, each with its header and its value when
    it has them. *)
Definition detail_page (crumbs : list string) (description : option string)
    (table : option (list (option string * option string))) : node :=
  Tag "[document]" ∅
    [ el "html" [] [ el "body" []
        [ el "ul" [("class", "breadcrumb")]
            ((λ c, el "li" [] [ el "a" [("href", "../index.html")] [ NavigableString c ] ])
               <$> crumbs);
          el "article" [("class", "product_page")]
            ([ el "div" [("class", "row")]
                 [ el "p" [("class", "price_color")] [ NavigableString "£51.77" ] ] ]
             ++ match description with
                | Some d => [ el "p" [] [ NavigableString d ] ]
                | None => []
                end
             ++ match table with
                | Some rows =>
                    [ el "table" [("class", "table table-striped")]
                        ((λ '(h, v),
                            el "tr" []
                              (match h with
                               | Some h => [ el "th" [] [ NavigableString h ] ]
                               | None => []
                               end
                               ++ match v with
                                  | Some v => [ el "td" [] [ NavigableString v ] ]
                                  | None => []
                                  end)) <$> rows) ]
                | None => []
                end) ] ] ].

Definition crumbs : list string := ["Home"; "Books"; "Poetry"].

Definition detail_full : node :=
  detail_page crumbs (Some "It's hard to imagine a world without it.")
    (Some [ (Some "UPC", Some "a897fe39b1053632");
            (Some "Tax", Some "£0.00");
            (Some "Availability", Some "In stock (22 available)") ]).
(** No description paragraph, and a table with the UPC row only. *)
Definition detail_bare : node :=
  detail_page crumbs None (Some [ (Some "UPC", Some "a897fe39b1053632") ]).
(** The second row of the table has no header cell. *)
Definition detail_headless : node :=
  detail_page crumbs (Some "A description.")
    (Some [ (Some "UPC", Some "a897fe39b1053632"); (None, Some "£0.00") ]).

Definition headless_row : node :=
  el "tr" [] [ el "td" [] [ NavigableString "£0.00" ] ].
Definition headless_table : node :=
  el "table" [("class", "table table-striped")]
    [ el "tr" [] [ el "th" [] [ NavigableString "UPC" ];
                   el "td" [] [ NavigableString "a897fe39b1053632" ] ];
      headless_row ].

Definition url_a : string :=
  "http://books.toscrape.com/catalogue/a-light-in-the-attic_1000/index.html".
Definition url_b : string :=
  "http://books.toscrape.com/catalogue/tipping-the-velvet_999/index.html".

(** The row of the first book, as [scrape_books] records it. *)
Definition row_a : dict :=
  {[ "titulo" := VStr "A Light in the Attic";
     "precio" := VFloat (Fin 51.77);
     "rating" := VInt 3;
     "disponibilidad" := VStr "In stock";
     "imagen_url" := VStr "http://books.toscrape.com/media/cache/2c/da/a.jpg";
     "libro_url" := VStr url_a ]}.

(** The details read from [detail_bare]. *)
Definition details_bare : dict :=
  {[ "categoria" := VStr "Poetry";
     "descripcion" := VStr "Sin descripción";
     "upc" := VStr "a897fe39b1053632";
     "impuestos" := VStr "";
     "stock" := VStr "" ]}.

(** A site with two catalog pages; the detail page of the second book is
    missing. *)
Definition site : internet := λ _ url,
  if decide (url = base_url 1) then Ok (Response 200 page_one)
  else if decide (url = base_url 2) then Ok (Response 200 page_two)
  else if decide (url = url_a) then Ok (Response 200 detail_bare)
  else Ok (Response 404 (catalog_page [])).

(** The same site when its first catalog page answers with an error. *)
Definition site_first_page_down : internet := λ _ url,
  if decide (url = base_url 1) then Ok (Response 500 (catalog_page []))
  else site 0%nat url.

(** A site whose detail pages have a table row without header cell. *)
Definition site_headless : internet := λ _ _, Ok (Response 200 detail_headless).

(** A detail page whose breadcrumb has two links only. *)
Definition detail_short : node :=
  detail_page ["Home"; "Books"] (Some "A description.") None.

(** A detail page whose table names the UPC twice. *)
Definition upc_row (code : string) : node :=
  el "tr" [] [ el "th" [] [ NavigableString "UPC" ];
               el "td" [] [ NavigableString code ] ].
Definition detail_twice : node :=
  detail_page crumbs None
    (Some [ (Some "UPC", Some "first"); (Some "UPC", Some "second") ]).

(** An item whose rating paragraph has the one class [star-rating]. *)
Definition book_unrated : node :=
  product_pod "Sapiens" "£54.23" "star-rating"
    "sapiens_996/index.html" "../media/cache/be/a5/e.jpg".

(** An item that has its title link and nothing else. *)
Definition book_bare : node :=
  el "article" [("class", "product_pod")]
    [ el "h3" [] [ el "a" [("href", "x/index.html"); ("title", "X")] [] ] ].

(** A site that cannot be reached. *)
Definition site_down : internet := λ _ _, Raise ConnectionError.

(** A site that does not answer the first request of a run and serves the
    bare detail page from then on. *)
Definition site_waking : internet := λ k _,
  if decide (k = 0%nat) then Raise ConnectionError
  else Ok (Response 200 detail_bare).

End Fixture.

(** * Vocabulary of the further properties *)

(** The columns of a book record. *)
Definition record_keys : gset string :=
  {[ "titulo"; "precio"; "rating"; "disponibilidad"; "imagen_url"; "libro_url" ]}.

(** The shape of a book record: its six columns, with a text title and
    availability, a float price, an integer rating from 0 to 5 and the two
    links made absolute. *)
Definition book_schema (d : dict) : Prop :=
  dom d = record_keys
  ∧ (∃ title, d !! "titulo" = Some (VStr title))
  ∧ (∃ price, d !! "precio" = Some (VFloat price))
  ∧ (∃ rating, d !! "rating" = Some (VInt rating) ∧ 0 ≤ rating ≤ 5)
  ∧ (∃ availability, d !! "disponibilidad" = Some (VStr availability))
  ∧ (∃ path, d !! "imagen_url"
             = Some (VStr ("http://books.toscrape.com/" +:+ path)))
  ∧ (∃ path, d !! "libro_url"
             = Some (VStr ("http://books.toscrape.com/catalogue/" +:+ path))).

(** What the turn for a page adds to the trace. *)
Definition page_events (answer : res response) (page : Z) : trace :=
  Get (base_url page) :: (if page_completes answer then [Sleep (1 # 2)] else []).

(** What the turn of the detail loop for a row adds to the trace. *)
Definition row_events (row : dict) : trace :=
  match row_request row with
  | Some url => [Get url; Sleep (1 # 2)]
  | None => [Sleep (1 # 2)]
  end.

(** The files written so far, oldest first, each with its rows. *)
Definition files_of (tr : trace) : list (string * list dict) :=
  omap (λ e, match e with ToCsv path data => Some (path, data) | _ => None end)
       tr.

(** [sub in s]: the text [sub] occurs in [s]. *)
Fixpoint occurs_in (sub s : string) : bool :=
  String.prefix sub s
  || match s with
     | String _ s' => occurs_in sub s'
     | "" => false
     end.

(** A relative link that climbs [k] directories before its path. *)
Fixpoint climbing (k : nat) (path : string) : string :=
  match k with
  | O => path
  | S k' => "../" +:+ climbing k' path
  end.






(** * Properties *)

(** Closed goals on sets of keys are decided by evaluation. *)
Ltac by_evaluation :=
  lazymatch goal with
  | |- ?P => apply (@bool_decide_unpack P _); vm_compute; exact I
  end.

(** ** The rating table *)

(** C4.  [get_rating_number] is defined on every string: it sends One, Two,
    Three, Four and Five to 1..5 and every other string to 0, so its value
    lies between 0 and 5. *)
Theorem get_rating_number_total_exact (rating_class : string) :
  (get_rating_number "One" = 1 ∧ get_rating_number "Two" = 2
   ∧ get_rating_number "Three" = 3 ∧ get_rating_number "Four" = 4
   ∧ get_rating_number "Five" = 5)
  ∧ get_rating_number rating_class = rating_of_token rating_class
  ∧ 0 ≤ get_rating_number rating_class ≤ 5.
Proof.
  split; [by repeat split|].
  assert (get_rating_number rating_class = rating_of_token rating_class) as Heq.
  { unfold get_rating_number, rating_of_token, ratings.
    repeat case_decide; simplify_map_eq; done. }
  split; [done|]. rewrite Heq. unfold rating_of_token.
  repeat case_decide; lia.
Qed.

(** ** Running the loops *)

Lemma for_nil {L X} (body : X → M L unit) l tr :
  for_ [] body l tr = (Ok tt, l, tr).
Proof. reflexivity. Qed.

Lemma for_cons {L X} (x : X) xs (body : X → M L unit) l tr :
  for_ (x :: xs) body l tr =
    match body x l tr with
    | (Ok _, l', tr') => for_ xs body l' tr'
    | (Raise e, l', tr') => (Raise e, l', tr')
    end.
Proof. reflexivity. Qed.

(** The item loop leaves the trace alone and appends the records of the
    items in front of the first one that raises. *)
Lemma scrape_books_items_run books all_books tr :
  scrape_books_items books all_books tr =
    ((records_until_error books).2,
     all_books ++ (records_until_error books).1, tr).
Proof.
  unfold scrape_books_items.
  revert all_books. induction books as [|book books IH]; intros all_books.
  - cbn. by rewrite app_nil_r.
  - rewrite for_cons. unfold bind at 1, lift, update. cbn [records_until_error].
    destruct (book_record book) as [d|e]; cbn.
    + rewrite IH. destruct (records_until_error books) as [ds r]; cbn.
      by rewrite <- app_assoc.
    + by rewrite app_nil_r.
Qed.

Lemma parse_catalog_page_eq soup :
  parse_catalog_page soup =
    (records_until_error (Bs4.find_all soup "article" (Some "product_pod"))).1.
Proof. unfold parse_catalog_page. by rewrite scrape_books_items_run. Qed.

Lemma records_until_error_split books :
  ∃ parsed rest,
    books = parsed ++ rest
    ∧ Forall2 (λ book d, book_record book = Ok d) parsed (records_until_error books).1
    ∧ match rest with
      | [] => (records_until_error books).2 = Ok tt
      | bad :: _ =>
          ∃ e, book_record bad = Raise e ∧ (records_until_error books).2 = Raise e
      end.
Proof.
  induction books as [|book books (parsed & rest & -> & Hrec & Hrest)].
  - exists [], []. cbn. by repeat split.
  - cbn [records_until_error]. destruct (book_record book) as [d|e] eqn:Hbook.
    + exists (book :: parsed), rest.
      destruct (records_until_error (parsed ++ rest)) as [ds r]; cbn in *.
      split; [done|]. split; [by constructor|done].
    + exists [], (book :: parsed ++ rest). cbn. split; [done|].
      split; [constructor|by exists e].
Qed.

(** C1, as amended.  For every catalog-page document the item loop returns
    one record per item node, in document order, for the items in front of
    the first item whose extraction raises (for all items when none raises).
    A malformed item ends the page: it and the items after it are left out,
    the records in front of it are kept. *)
Theorem parse_catalog_page_until_error (soup : node) :
  ∃ parsed rest,
    Bs4.find_all soup "article" (Some "product_pod") = parsed ++ rest
    ∧ Forall2 (λ book d, book_record book = Ok d) parsed (parse_catalog_page soup)
    ∧ match rest with
      | [] => True
      | bad :: _ => ∃ e, book_record bad = Raise e
      end.
Proof.
  rewrite parse_catalog_page_eq.
  destruct (records_until_error_split
              (Bs4.find_all soup "article" (Some "product_pod")))
    as (parsed & rest & Hsplit & Hrec & Hrest).
  exists parsed, rest. split; [done|]. split; [done|].
  destruct rest as [|bad rest]; [done|].
  destruct Hrest as (e & He & _). by exists e.
Qed.

(** One turn of the page loop never raises: it sends one request, appends
    what the answer contributes, and sleeps only when the [try] block ran to
    its end. *)
Lemma scrape_books_page_run web page all_books tr :
  let answer := web (length (requests_of tr)) (base_url page) in
  scrape_books_page web page all_books tr =
    (Ok tt, all_books ++ page_records answer,
     tr ++ Get (base_url page)
        :: (if page_completes answer then [Sleep (1 # 2)] else [])).
Proof.
  cbn zeta. unfold scrape_books_page, try_except, bind, requests_get, lift.
  unfold page_records, page_completes.
  destruct (web _ _) as [response|e]; [|by rewrite app_nil_r].
  destruct (raise_for_status response) as [[]|e]; [|by rewrite app_nil_r].
  rewrite scrape_books_items_run, parse_catalog_page_eq.
  destruct (records_until_error _) as [ds [[]|e]]; cbn; [|done].
  unfold time_sleep, emit. by rewrite <- app_assoc.
Qed.

Lemma requests_of_app tr1 tr2 :
  requests_of (tr1 ++ tr2) = requests_of tr1 ++ requests_of tr2.
Proof. apply omap_app. Qed.

Lemma requests_of_page url (b : bool) :
  requests_of (Get url :: (if b then [Sleep (1 # 2)] else [])) = [url].
Proof. by destruct b. Qed.

(** The walk over a list of pages never raises; the request number of a
    page is its position in the walk. *)
Lemma scrape_books_pages_run web pages : ∀ all_books tr,
  ∃ tr',
    for_ pages (scrape_books_page web) all_books tr =
      (Ok tt,
       all_books
         ++ concat (imap (λ i page,
                      page_records (web (length (requests_of tr) + i)%nat
                                        (base_url page))) pages),
       tr')
    ∧ requests_of tr' = requests_of tr ++ (base_url <$> pages).
Proof.
  induction pages as [|page pages IH]; intros all_books tr.
  - exists tr. cbn. by rewrite !app_nil_r.
  - rewrite for_cons, scrape_books_page_run. cbn zeta.
    set (answer := web (length (requests_of tr)) (base_url page)).
    set (tr1 := tr ++ _).
    assert (requests_of tr1 = requests_of tr ++ [base_url page]) as Hreq.
    { unfold tr1. by rewrite requests_of_app, requests_of_page. }
    destruct (IH (all_books ++ page_records answer) tr1) as (tr' & -> & Htr').
    exists tr'. split.
    + f_equal. f_equal. rewrite imap_cons. cbn [concat].
      rewrite <- app_assoc, Nat.add_0_r. do 3 f_equal.
      apply imap_ext. intros i p _. cbn.
      rewrite Hreq, length_app. cbn. do 2 f_equal. lia.
    + rewrite Htr', Hreq, <- app_assoc. done.
Qed.

Lemma parse_catalog_page_records soup :
  Forall (λ d, ∃ book, book_record book = Ok d) (parse_catalog_page soup).
Proof.
  rewrite parse_catalog_page_eq.
  destruct (records_until_error_split
              (Bs4.find_all soup "article" (Some "product_pod")))
    as (parsed & _ & _ & Hrec & _).
  induction Hrec; constructor; eauto.
Qed.

Lemma page_records_records answer :
  Forall (λ d, ∃ book, book_record book = Ok d) (page_records answer).
Proof.
  unfold page_records. destruct answer as [response|]; [|constructor].
  destruct (raise_for_status response); [|constructor].
  apply parse_catalog_page_records.
Qed.

Lemma scrape_books_records web num_pages :
  Forall (λ d, ∃ book, book_record book = Ok d) (scrape_books web num_pages []).1.
Proof.
  unfold scrape_books.
  destruct (scrape_books_pages_run web (range 1 (num_pages + 1)) [] [])
    as (tr' & -> & _).
  cbn [fst app]. apply Forall_concat, Forall_forall. intros recs Hin.
  apply list_elem_of_lookup in Hin as [i Hi].
  apply list_lookup_imap_Some in Hi as (page & _ & ->).
  apply page_records_records.
Qed.

(** C2.  For a positive page count [n], [scrape_books] requests the pages
    1..n in this order, one request per page whatever the earlier pages did,
    and the catalog is the concatenation, in page order, of what each page
    contributed; every entry is the record of an item, a failed page leaves
    nothing behind. *)
Theorem scrape_books_walk (web : internet) (num_pages : Z) :
  0 < num_pages →
  requests_of (scrape_books web num_pages []).2 = base_url <$> seqZ 1 num_pages
  ∧ Z.of_nat (length (requests_of (scrape_books web num_pages []).2)) = num_pages
  ∧ (scrape_books web num_pages []).1 =
      concat (imap (λ i page, page_records (web i (base_url page)))
                   (seqZ 1 num_pages))
  ∧ Forall (λ d, ∃ book, book_record book = Ok d) (scrape_books web num_pages []).1.
Proof.
  intros Hpos. unfold scrape_books, range.
  replace (num_pages + 1 - 1) with num_pages by lia.
  destruct (scrape_books_pages_run web (seqZ 1 num_pages) [] []) as (tr' & -> & Htr').
  change (requests_of []) with (@nil string) in *.
  cbn [fst snd length Nat.add app] in *.
  rewrite Htr'. split; [done|]. split.
  { rewrite length_fmap, length_seqZ. lia. }
  split; [done|].
  apply Forall_concat, Forall_forall. intros recs Hin.
  apply list_elem_of_lookup in Hin as [i Hi].
  apply list_lookup_imap_Some in Hi as (page & _ & ->).
  apply page_records_records.
Qed.

Lemma scrape_books_walk_witness :
  0 < 2
  ∧ requests_of (scrape_books Fixture.site 2 []).2 = base_url <$> seqZ 1 2
  ∧ Z.of_nat (length (requests_of (scrape_books Fixture.site 2 []).2)) = 2
  ∧ (scrape_books Fixture.site 2 []).1 =
      concat (imap (λ i page, page_records (Fixture.site i (base_url page)))
                   (seqZ 1 2))
  ∧ Forall (λ d, ∃ book, book_record book = Ok d) (scrape_books Fixture.site 2 []).1.
Proof. split; [lia | apply (scrape_books_walk Fixture.site 2); lia]. Defined.

(** C1 as the specification states it would make the item loop return the
    record of every item that can be read.  On a page whose second item of
    three is malformed the loop returns the first record only: the third
    item, which can be read, is lost with the second. *)
Lemma parse_catalog_page_not_isolating :
  let books := Bs4.find_all Fixture.page_flawed "article" (Some "product_pod") in
  books = [Fixture.book_a; Fixture.book_free; Fixture.book_c]
  ∧ omap record_of books = omap record_of [Fixture.book_a; Fixture.book_c]
  ∧ length (omap record_of books) = 2%nat
  ∧ parse_catalog_page Fixture.page_flawed = omap record_of [Fixture.book_a]
  ∧ parse_catalog_page Fixture.page_flawed ≠ omap record_of books.
Proof.
  assert (Bs4.find_all Fixture.page_flawed "article" (Some "product_pod")
          = [Fixture.book_a; Fixture.book_free; Fixture.book_c]) as Hbooks
    by (vm_compute; reflexivity).
  cbn zeta. rewrite Hbooks.
  assert (parse_catalog_page Fixture.page_flawed = omap record_of [Fixture.book_a])
    as Hpage by (vm_compute; reflexivity).
  split; [done|]. split; [vm_compute; reflexivity|].
  split; [vm_compute; reflexivity|]. split; [done|].
  rewrite Hpage. intros Heq. apply (f_equal length) in Heq.
  vm_compute in Heq. discriminate.
Qed.

(** ** The price step *)


(** The steps of [book_record], one after the other. *)
Ltac book_record_steps H :=
  unfold book_record, res_bind, dot, subscript, index in H;
  repeat match type of H with
         | context [match ?x with _ => _ end] =>
             lazymatch x with
             | context [match _ with _ => _ end] => fail
             | _ => destruct x eqn:?; try discriminate
             end
         end.




(** *** Reading a decimal number *)

(** What [float] does around the number.  White space of any script is
    dropped at both ends, the no-break space U+00A0 included; the ASCII
    separators 0x1C to 0x1F are not, although [str.strip] drops them.  The
    decimal digits of any script are read as digits.  A number beyond the
    range of a float is read as infinity. *)
Example float_around_the_number :
  price_of (Utf8.encode [163; 53; 49; 46; 55; 55; 160]%N) = Ok (Fin 51.77)
  ∧ float (Utf8.encode [8195; 49; 50; 12288]%N) = Ok (Fin 12)
  ∧ float (Utf8.encode [28; 49; 50]%N) = Raise ValueError
  ∧ Str.strip (Utf8.encode [28; 49; 50; 160]%N) = "12"
  ∧ float (Utf8.encode [1633; 1634; 46; 1637]%N) = Ok (Fin (25 # 2))
  ∧ float "1e400" = Ok (Inf false)
  ∧ float "-1e400" = Ok (Inf true)
  ∧ float "1_000.5e-1" = Ok (Fin (2001 # 20))
  ∧ float "1__0" = Raise ValueError
  ∧ float "" = Raise ValueError.
Proof. repeat split; vm_compute; reflexivity. Qed.











Lemma prefix_empty s : String.prefix "" s = true.
Proof. by destruct s. Qed.

Lemma replace_go_absent old new s :
  old ≠ "" → occurs_in old s = false → Str.replace_go old new O s = s.
Proof.
  intros Hold. induction s as [|c s IH]; intros Habsent.
  - cbn. by destruct old.
  - cbn [occurs_in] in Habsent. apply orb_false_iff in Habsent as [Hhead Htail].
    cbn [Str.replace_go]. rewrite Hhead. f_equal. by apply IH.
Qed.















(** ** The politeness delay *)

(** C8 at a failing input.  When the first of two pages answers with an
    error the second request follows the first with no sleep in between:
    the sleep stands at the end of the [try] block and is skipped with the
    rest of it. *)
Theorem scrape_books_no_delay_after_failure :
  (scrape_books Fixture.site_first_page_down 2 []).2 =
    [ Get "http://books.toscrape.com/catalogue/page-1.html";
      Get "http://books.toscrape.com/catalogue/page-2.html";
      Sleep (1 # 2) ]
  ∧ polite (scrape_books Fixture.site_first_page_down 2 []).2 = false.
Proof. split; vm_compute; reflexivity. Qed.

(** The detail loop of [main], next to it, sleeps after a failed attempt too. *)
Example main_detail_row_sleeps_after_failure :
  (main_detail_row Fixture.site_down
     {[ "libro_url" := VStr Fixture.url_a ]} [] []).2 =
    [ Get Fixture.url_a; Sleep (1 # 2) ].
Proof. vm_compute. reflexivity. Qed.

(** ** The statistics *)

(** C7 at a failing input.  A run that collects no record builds a frame
    without columns; the statistics step then raises [KeyError] for the
    price column, and [main] ends with that exception. *)
Theorem main_stats_empty_catalog :
  (scrape_books Fixture.site_down 5 []).1 = []
  ∧ main_stats (Pd.DataFrame []) = Raise (KeyError "precio")
  ∧ (main Fixture.site_down).1 = Raise (KeyError "precio").
Proof. repeat split; vm_compute; reflexivity. Qed.

Example main_stats_three_prices :
  main_stats (Pd.DataFrame
    [ {[ "precio" := VFloat (Fin 10); "rating" := VInt 1 ]};
      {[ "precio" := VFloat (Fin 20); "rating" := VInt 3 ]};
      {[ "precio" := VFloat (Fin 30); "rating" := VInt 5 ]} ])
  = Ok {[ "total_libros" := VInt 3;
          "precio_promedio" := VFloat (Fin 20);
          "precio_minimo" := VFloat (Fin 10);
          "precio_maximo" := VFloat (Fin 30);
          "rating_promedio" := VFloat (Fin 3) ]}.
Proof. vm_compute. reflexivity. Qed.

(** ** The detail page *)


Lemma table_rows_headless rows : ∀ product_info row,
  row ∈ rows → Bs4.find row "th" None = None →
  ∃ e, table_rows rows product_info = Raise e.
Proof.
  induction rows as [|row' rows IH]; intros product_info row Hin Hth.
  - by apply elem_of_nil in Hin.
  - cbn. unfold res_bind, dot.
    apply elem_of_cons in Hin as [<-|Hin].
    + rewrite Hth. eauto.
    + destruct (Bs4.find row' "th" None); [|eauto].
      destruct (Bs4.find row' "td" None); [|eauto].
      by eapply IH.
Qed.


Lemma book_details_dom soup details :
  book_details soup = Ok details → dom details = detail_keys.
Proof.
  unfold book_details, res_bind. intros H.
  destruct (category_of soup); [|done]. destruct (description_of soup); [|done].
  destruct (product_info_of soup); [|done]. injection H as <-.
  rewrite !dom_insert_L, dom_singleton_L. by_evaluation.
Qed.




(** On that page the paragraph and the rows for Tax and Availability are
    indeed missing. *)
Example detail_bare_missing_parts :
  (∃ article,
     Bs4.find Fixture.detail_bare "article" (Some "product_page") = Some article
     ∧ Bs4.find_child article "p" = None)
  ∧ no_row_with_header Fixture.detail_bare "Tax"
  ∧ no_row_with_header Fixture.detail_bare "Availability"
  ∧ book_details Fixture.detail_bare = Ok Fixture.details_bare.
Proof.
  split; [eexists; split; vm_compute; reflexivity|].
  assert (∀ key, key ≠ "UPC" → no_row_with_header Fixture.detail_bare key) as Hno.
  { intros key Hkey table row th Htable Hrow Hth.
    vm_compute in Htable. injection Htable as <-.
    vm_compute in Hrow. apply list_elem_of_singleton in Hrow as ->.
    vm_compute in Hth. injection Hth as <-.
    vm_compute. congruence. }
  split; [by apply Hno|]. split; [by apply Hno|]. vm_compute. reflexivity.
Qed.

(** [scrape_book_details] sends at most one request, leaves the locals of
    its caller alone and returns what its [try] block computed, or [None]. *)
Lemma scrape_book_details_run {L} web book_url (l : L) tr :
  scrape_book_details web book_url l tr =
    (Ok match details_attempt web (length (requests_of tr)) book_url with
        | Ok details => Some details
        | Raise _ => None
        end,
     l,
     tr ++ match url_text book_url with
           | Ok url => [Get url]
           | Raise _ => []
           end).
Proof.
  unfold scrape_book_details, details_attempt, try_except, bind, lift,
    requests_get, ret, res_bind.
  destruct (url_text book_url) as [url|e]; [|by rewrite app_nil_r].
  destruct (web _ url) as [response|e]; [|done].
  destruct (raise_for_status response) as [[]|e]; [|done].
  by destruct (book_details (content response)).
Qed.

Lemma book_details_headless soup table row :
  Bs4.find soup "table" (Some "table-striped") = Some table →
  row ∈ Bs4.find_all table "tr" None →
  Bs4.find row "th" None = None →
  ∃ e, book_details soup = Raise e.
Proof.
  intros Htable Hrow Hth. unfold book_details, res_bind.
  destruct (category_of soup); [|eauto].
  destruct (description_of soup); [|eauto].
  unfold product_info_of. rewrite Htable.
  by destruct (table_rows_headless _ ∅ row Hrow Hth) as [e ->]; eauto.
Qed.

Lemma details_attempt_dom web k book_url details :
  details_attempt web k book_url = Ok details → dom details = detail_keys.
Proof.
  unfold details_attempt, res_bind. intros H.
  destruct (url_text book_url); [|done]. destruct (web _ _); [|done].
  destruct (raise_for_status _); [|done]. by eapply book_details_dom.
Qed.

(** C10.  [scrape_book_details] never raises: it returns [None] whenever
    the request or the extraction fails and a dictionary with exactly the
    five detail fields otherwise.  A row of the product table without a
    header cell makes the whole extraction fail, so the answer is [None]. *)
Theorem scrape_book_details_total (web : internet) (book_url : value)
    (detailed_books : list dict) (tr : trace) :
  (∃ details tr',
      scrape_book_details web book_url detailed_books tr
        = (Ok details, detailed_books, tr')
      ∧ match details with
        | Some d =>
            details_attempt web (length (requests_of tr)) book_url = Ok d
            ∧ dom d = detail_keys
        | None =>
            ∃ e, details_attempt web (length (requests_of tr)) book_url = Raise e
        end)
  ∧ (∀ url status soup table row,
       book_url = VStr url →
       web (length (requests_of tr)) url = Ok (Response status soup) →
       Bs4.find soup "table" (Some "table-striped") = Some table →
       row ∈ Bs4.find_all table "tr" None →
       Bs4.find row "th" None = None →
       (scrape_book_details web book_url detailed_books tr).1.1 = Ok None).
Proof.
  split.
  - rewrite scrape_book_details_run. eexists _, _. split; [done|].
    destruct (details_attempt web _ book_url) as [d|e] eqn:Hattempt; [|eauto].
    split; [done|]. by eapply details_attempt_dom.
  - intros url status soup table row -> Hweb Htable Hrow Hth.
    rewrite scrape_book_details_run. cbn [fst].
    unfold details_attempt, res_bind. cbn [url_text]. rewrite Hweb.
    destruct (raise_for_status _); [|done]. cbn [content].
    by destruct (book_details_headless soup table row Htable Hrow Hth) as [e ->].
Qed.

Lemma scrape_book_details_total_witness :
  Fixture.site_headless (length (requests_of [])) Fixture.url_a
    = Ok (Response 200 Fixture.detail_headless)
  ∧ Bs4.find Fixture.detail_headless "table" (Some "table-striped")
    = Some Fixture.headless_table
  ∧ Fixture.headless_row ∈ Bs4.find_all Fixture.headless_table "tr" None
  ∧ Bs4.find Fixture.headless_row "th" None = None
  ∧ (scrape_book_details Fixture.site_headless (VStr Fixture.url_a)
       ([] : list dict) []).1.1
    = Ok None.
Proof.
  assert (Bs4.find Fixture.detail_headless "table" (Some "table-striped")
          = Some Fixture.headless_table) as Htable by (vm_compute; reflexivity).
  assert (Fixture.headless_row ∈ Bs4.find_all Fixture.headless_table "tr" None)
    as Hrow by (vm_compute; right; left).
  assert (Bs4.find Fixture.headless_row "th" None = None) as Hth
    by (vm_compute; reflexivity).
  split; [reflexivity|]. split; [exact Htable|]. split; [exact Hrow|].
  split; [exact Hth|].
  exact (proj2 (scrape_book_details_total Fixture.site_headless
                  (VStr Fixture.url_a) [] [])
           Fixture.url_a 200 Fixture.detail_headless Fixture.headless_table
           Fixture.headless_row eq_refl eq_refl Htable Hrow Hth).
Defined.

(** ** The detail loop of [main] *)

Lemma detail_keys_nonempty (details : dict) :
  dom details = detail_keys → details ≠ ∅.
Proof.
  intros Hdom ->. rewrite dom_empty_L in Hdom.
  assert ("upc" ∈ detail_keys) as Hin by by_evaluation.
  rewrite <- Hdom in Hin. by apply not_elem_of_empty in Hin.
Qed.

(** One turn of the detail loop on a row that has the columns it reads. *)
Lemma main_detail_row_run web row book_url titulo precio rating l tr :
  row !! "libro_url" = Some book_url →
  row !! "titulo" = Some titulo →
  row !! "precio" = Some precio →
  row !! "rating" = Some rating →
  main_detail_row web row l tr =
    (Ok tt,
     l ++ match details_attempt web (length (requests_of tr)) book_url with
          | Ok details =>
              [details ∪ {[ "titulo" := titulo; "precio" := precio;
                            "rating" := rating ]}]
          | Raise _ => []
          end,
     (tr ++ match url_text book_url with
            | Ok url => [Get url]
            | Raise _ => []
            end) ++ [Sleep (1 # 2)]).
Proof.
  intros Hurl Htitulo Hprecio Hrating.
  unfold main_detail_row, bind, lift, Pd.row_getitem. rewrite Hurl.
  rewrite scrape_book_details_run.
  destruct (details_attempt web _ book_url) as [details|e] eqn:Hattempt; cbn.
  - apply details_attempt_dom, detail_keys_nonempty in Hattempt.
    rewrite bool_decide_eq_false_2 by done. cbn.
    rewrite Htitulo, Hprecio, Hrating. done.
  - by rewrite app_nil_r.
Qed.

Lemma enriched_dom (details : dict) (titulo precio rating : value) :
  dom details = detail_keys →
  dom (details ∪ ({[ "titulo" := titulo; "precio" := precio;
                     "rating" := rating ]} : dict)) = enriched_keys.
Proof.
  intros Hdom.
  rewrite dom_union_L, Hdom, !dom_insert_L, dom_singleton_L. by_evaluation.
Qed.

Lemma row_events_eq row book_url :
  row !! "libro_url" = Some book_url →
  match url_text book_url with
  | Ok url => [Get url]
  | Raise _ => []
  end ++ [Sleep (1 # 2)] = row_events row.
Proof.
  intros Hurl. unfold row_events, row_request. rewrite Hurl.
  by destruct book_url.
Qed.

Lemma requests_of_row_events rows :
  requests_of (concat (row_events <$> rows)) = omap row_request rows.
Proof.
  induction rows as [|row rows IH]; [done|].
  cbn [fmap list_fmap concat]. rewrite requests_of_app, IH.
  unfold row_events. cbn [omap list_omap].
  by destruct (row_request row).
Qed.

Lemma length_omap_le {A B} (f : A → option B) (l : list A) :
  (length (omap f l) ≤ length l)%nat.
Proof.
  induction l as [|x l IH]; cbn; [done|].
  destruct (f x); cbn; lia.
Qed.

Lemma row_outcomes_length web k rows outs :
  row_outcomes web k rows outs → length outs = length rows.
Proof. induction 1; cbn; congruence. Qed.

Lemma requests_after_row tr row :
  length (requests_of (tr ++ row_events row))
  = (length (requests_of tr) + row_requests row)%nat.
Proof.
  rewrite requests_of_app, length_app. f_equal.
  unfold row_events, row_requests. by destruct (row_request row).
Qed.

(** The loop over rows that have the columns it reads never raises: it
    yields one outcome per row, in the order of the rows, each decided by
    the attempt of the row itself, and appends the outcomes that are
    records; every turn adds the events of its row to the trace. *)
Lemma main_detail_rows_full web rows :
  Forall book_row rows →
  ∀ l tr, ∃ outs,
    for_ rows (main_detail_row web) l tr
      = (Ok tt, l ++ omap id outs, tr ++ concat (row_events <$> rows))
    ∧ row_outcomes web (length (requests_of tr)) rows outs
    ∧ Forall (λ d, dom d = enriched_keys) (omap id outs).
Proof.
  induction 1 as [|row rows Hrow _ IH]; intros l tr.
  - exists []. cbn. rewrite !app_nil_r. split; [done|]. split; constructor.
  - destruct Hrow as ([book_url Hurl] & [titulo Htitulo] & [precio Hprecio]
                      & [rating Hrating]).
    rewrite for_cons,
      (main_detail_row_run web row book_url titulo precio rating) by done.
    rewrite <- app_assoc, (row_events_eq row book_url Hurl).
    set (k := length (requests_of tr)).
    destruct (details_attempt web k book_url) as [details|e] eqn:Hattempt.
    + destruct (IH (l ++ [details ∪ {[ "titulo" := titulo; "precio" := precio;
                                        "rating" := rating ]}])
                   (tr ++ row_events row)) as (outs & -> & Houts & Hdoms).
      rewrite requests_after_row in Houts.
      exists (Some (details ∪ {[ "titulo" := titulo; "precio" := precio;
                                 "rating" := rating ]}) :: outs).
      split; [|split].
      * cbn. by rewrite <- !app_assoc.
      * constructor; [|done]. exists book_url. split; [done|].
        by exists details, titulo, precio, rating.
      * cbn. constructor; [|done].
        by eapply enriched_dom, details_attempt_dom.
    + destruct (IH (l ++ []) (tr ++ row_events row)) as (outs & -> & Houts & Hdoms).
      rewrite requests_after_row in Houts.
      exists (None :: outs). split; [|split].
      * cbn. by rewrite app_nil_r, <- !app_assoc.
      * constructor; [|done]. exists book_url. split; [done|]. by exists e.
      * done.
Qed.

(** C5.  Over rows that are book records the detail loop looks at the
    first [limit] rows and no further ([main] sets the limit to 10): it sends
    at most one request for each of them.  Every row it looks at has the
    outcome of its own attempt: the enriched record when that attempt
    succeeded, nothing when it failed.  The output holds the records among
    these outcomes and nothing else, in the order of the rows. *)
Theorem main_detailed_books_limit (web : internet) (limit : nat)
    (df_books : DataFrame) (detailed_books : list dict) (tr : trace) :
  Forall book_row (rows df_books) →
  ∃ outs tr',
    main_detailed_books web limit df_books detailed_books tr
      = (Ok tt, detailed_books ++ omap id outs, tr')
    ∧ row_outcomes web (length (requests_of tr)) (take limit (rows df_books)) outs
    ∧ (length outs ≤ limit)%nat
    ∧ requests_of tr'
      = requests_of tr ++ omap row_request (take limit (rows df_books))
    ∧ (length (requests_of tr') ≤ length (requests_of tr) + limit)%nat.
Proof.
  intros Hrows. unfold main_detailed_books. cbn [Pd.head rows].
  destruct (main_detail_rows_full web (take limit (rows df_books))
              (Forall_take _ _ _ Hrows) detailed_books tr)
    as (outs & Hrun & Houts & _).
  eexists outs, _. split; [exact Hrun|]. split; [done|].
  assert (length (take limit (rows df_books)) ≤ limit)%nat as Hlen
    by (rewrite length_take; lia).
  split; [by rewrite (row_outcomes_length _ _ _ _ Houts)|].
  rewrite requests_of_app, requests_of_row_events. split; [done|].
  rewrite length_app. apply Nat.add_le_mono_l.
  etrans; [apply length_omap_le|exact Hlen].
Qed.

(** The records of [scrape_books] are book rows, also once in a frame. *)
Lemma book_record_book_row book d : book_record book = Ok d → book_row d.
Proof.
  intros H. book_record_steps H. injection H as <-.
  unfold book_row. by simplify_map_eq.
Qed.

Lemma fill_book_row cols row : book_row row → book_row (Pd.fill cols row).
Proof.
  unfold book_row, Pd.fill.
  intros ([? H1] & [? H2] & [? H3] & [? H4]).
  repeat split; eexists; by apply lookup_union_Some_l.
Qed.

Lemma DataFrame_book_rows data :
  Forall (λ d, ∃ book, book_record book = Ok d) data →
  Forall book_row (rows (Pd.DataFrame data)).
Proof.
  intros Hdata. unfold Pd.DataFrame. cbn [rows].
  apply Forall_fmap. eapply Forall_impl; [exact Hdata|].
  intros d [book Hbook]. by eapply fill_book_row, book_record_book_row.
Qed.

Lemma main_detailed_books_limit_witness :
  Forall book_row (rows (Pd.DataFrame (scrape_books Fixture.site 2 []).1))
  ∧ ∃ outs tr',
      main_detailed_books Fixture.site 2
          (Pd.DataFrame (scrape_books Fixture.site 2 []).1) [] []
        = (Ok tt, [] ++ omap id outs, tr')
      ∧ row_outcomes Fixture.site (length (requests_of []))
          (take 2 (rows (Pd.DataFrame (scrape_books Fixture.site 2 []).1))) outs
      ∧ (length outs ≤ 2)%nat
      ∧ requests_of tr'
        = requests_of [] ++
            omap row_request
              (take 2 (rows (Pd.DataFrame (scrape_books Fixture.site 2 []).1)))
      ∧ (length (requests_of tr') ≤ length (requests_of []) + 2)%nat.
Proof.
  assert (Forall book_row
            (rows (Pd.DataFrame (scrape_books Fixture.site 2 []).1))) as Hrows
    by apply DataFrame_book_rows, scrape_books_records.
  split; [exact Hrows|].
  exact (main_detailed_books_limit Fixture.site 2 _ [] [] Hrows).
Defined.

(** On the sample site the loop over the first two of three rows keeps the
    first and drops the second, whose detail page is missing. *)
Example main_detailed_books_sample :
  (scrape_books Fixture.site 2 []).1
    = omap record_of [Fixture.book_a; Fixture.book_b; Fixture.book_c]
  ∧ (main_detailed_books Fixture.site 2
       (Pd.DataFrame (scrape_books Fixture.site 2 []).1) [] []).1
    = (Ok tt,
       [ {[ "titulo" := VStr "A Light in the Attic";
            "precio" := VFloat (Fin 51.77);
            "rating" := VInt 3;
            "categoria" := VStr "Poetry";
            "descripcion" := VStr "Sin descripción";
            "upc" := VStr "a897fe39b1053632";
            "impuestos" := VStr "";
            "stock" := VStr "" ]} ])
  ∧ (main_detailed_books Fixture.site 2
       (Pd.DataFrame (scrape_books Fixture.site 2 []).1) [] []).2
    = [ Get Fixture.url_a; Sleep (1 # 2); Get Fixture.url_b; Sleep (1 # 2) ].
Proof. repeat split; vm_compute; reflexivity. Qed.

(** On a site whose answers change from one request to the next, each row
    has the outcome of its own request: of two rows with the same URL the
    first, whose request fails, is left out and the second is kept. *)
Example main_detailed_books_waking_site :
  main_detailed_books Fixture.site_waking 10
    (Pd.DataFrame [Fixture.row_a; Fixture.row_a]) [] []
  = (Ok tt,
     [ {[ "titulo" := VStr "A Light in the Attic";
          "precio" := VFloat (Fin 51.77);
          "rating" := VInt 3;
          "categoria" := VStr "Poetry";
          "descripcion" := VStr "Sin descripción";
          "upc" := VStr "a897fe39b1053632";
          "impuestos" := VStr "";
          "stock" := VStr "" ]} ],
     [ Get Fixture.url_a; Sleep (1 # 2); Get Fixture.url_a; Sleep (1 # 2) ])
  ∧ row_outcomes Fixture.site_waking 0 [Fixture.row_a; Fixture.row_a]
      [ None;
        Some {[ "titulo" := VStr "A Light in the Attic";
                "precio" := VFloat (Fin 51.77);
                "rating" := VInt 3;
                "categoria" := VStr "Poetry";
                "descripcion" := VStr "Sin descripción";
                "upc" := VStr "a897fe39b1053632";
                "impuestos" := VStr "";
                "stock" := VStr "" ]} ].
Proof.
  split; [vm_compute; reflexivity|].
  constructor.
  { exists (VStr Fixture.url_a). split; [vm_compute; reflexivity|].
    exists ConnectionError. vm_compute; reflexivity. }
  constructor; [|constructor].
  exists (VStr Fixture.url_a). split; [vm_compute; reflexivity|].
  do 4 eexists. repeat split; vm_compute; reflexivity.
Qed.

(** ** The enriched record *)

(** C6 as the specification states it keeps the six fields of the book
    record.  The record the loop builds for the first book of the sample
    site has lost three of them. *)
Lemma enriched_record_drops_fields :
  ∃ d,
    (main_detail_row Fixture.site Fixture.row_a [] []).1 = (Ok tt, [d])
    ∧ book_record Fixture.book_a = Ok Fixture.row_a
    ∧ Fixture.row_a !! "disponibilidad" = Some (VStr "In stock")
    ∧ d !! "disponibilidad" = None
    ∧ d !! "imagen_url" = None
    ∧ d !! "libro_url" = None.
Proof. eexists. repeat split; vm_compute; reflexivity. Qed.

(** C6, as amended.  The record built for a row whose detail attempt
    succeeded has eight fields: [titulo], [precio] and [rating] as they are
    in the row, and the five detail fields as the attempt returned them.
    The fields [disponibilidad], [imagen_url] and [libro_url] of the row are
    not carried over. *)
Theorem enriched_record_fields (web : internet) (row details : dict)
    (book_url titulo precio rating : value)
    (detailed_books : list dict) (tr : trace) :
  row !! "libro_url" = Some book_url →
  row !! "titulo" = Some titulo →
  row !! "precio" = Some precio →
  row !! "rating" = Some rating →
  details_attempt web (length (requests_of tr)) book_url = Ok details →
  ∃ d,
    (main_detail_row web row detailed_books tr).1 = (Ok tt, detailed_books ++ [d])
    ∧ dom d = enriched_keys
    ∧ d !! "titulo" = Some titulo
    ∧ d !! "precio" = Some precio
    ∧ d !! "rating" = Some rating
    ∧ (∀ key, key ∈ detail_keys → d !! key = details !! key)
    ∧ d !! "disponibilidad" = None
    ∧ d !! "imagen_url" = None
    ∧ d !! "libro_url" = None.
Proof.
  intros Hurl Htitulo Hprecio Hrating Hattempt.
  rewrite (main_detail_row_run web row book_url titulo precio rating) by done.
  rewrite Hattempt. eexists. split; [done|].
  pose proof (details_attempt_dom _ _ _ _ Hattempt) as Hdom.
  assert (∀ key, key ∉ detail_keys → details !! key = None) as Hout.
  { intros key Hkey. apply not_elem_of_dom. by rewrite Hdom. }
  assert (dom (details ∪ ({[ "titulo" := titulo; "precio" := precio;
                            "rating" := rating ]} : dict)) = enriched_keys) as Hd.
  { rewrite dom_union_L, Hdom, !dom_insert_L, dom_singleton_L. by_evaluation. }
  split; [done|].
  assert (∀ key, key ∉ enriched_keys →
            (details ∪ ({[ "titulo" := titulo; "precio" := precio;
                           "rating" := rating ]} : dict)) !! key = None) as Habsent.
  { intros key Hkey. apply not_elem_of_dom. by rewrite Hd. }
  repeat split.
  - rewrite lookup_union_r; [apply lookup_insert_eq|].
    apply Hout. by_evaluation.
  - rewrite lookup_union_r;
      [by rewrite lookup_insert_ne, lookup_insert_eq|].
    apply Hout. by_evaluation.
  - rewrite lookup_union_r;
      [by rewrite !lookup_insert_ne, lookup_singleton_eq|].
    apply Hout. by_evaluation.
  - intros key Hkey. rewrite <- Hdom in Hkey.
    apply elem_of_dom in Hkey as [v Hv].
    rewrite Hv. by apply lookup_union_Some_l.
  - apply Habsent. by_evaluation.
  - apply Habsent. by_evaluation.
  - apply Habsent. by_evaluation.
Qed.

Lemma enriched_record_fields_witness :
  Fixture.row_a !! "libro_url" = Some (VStr Fixture.url_a)
  ∧ Fixture.row_a !! "titulo" = Some (VStr "A Light in the Attic")
  ∧ Fixture.row_a !! "precio" = Some (VFloat (Fin 51.77))
  ∧ Fixture.row_a !! "rating" = Some (VInt 3)
  ∧ details_attempt Fixture.site (length (requests_of [])) (VStr Fixture.url_a)
    = Ok Fixture.details_bare
  ∧ ∃ d,
      (main_detail_row Fixture.site Fixture.row_a [] []).1 = (Ok tt, [] ++ [d])
      ∧ dom d = enriched_keys
      ∧ d !! "titulo" = Some (VStr "A Light in the Attic")
      ∧ d !! "precio" = Some (VFloat (Fin 51.77))
      ∧ d !! "rating" = Some (VInt 3)
      ∧ (∀ key, key ∈ detail_keys → d !! key = Fixture.details_bare !! key)
      ∧ d !! "disponibilidad" = None
      ∧ d !! "imagen_url" = None
      ∧ d !! "libro_url" = None.
Proof.
  assert (Fixture.row_a !! "libro_url" = Some (VStr Fixture.url_a)) as Hurl
    by (vm_compute; reflexivity).
  assert (Fixture.row_a !! "titulo" = Some (VStr "A Light in the Attic"))
    as Htitulo by (vm_compute; reflexivity).
  assert (Fixture.row_a !! "precio" = Some (VFloat (Fin 51.77))) as Hprecio
    by (vm_compute; reflexivity).
  assert (Fixture.row_a !! "rating" = Some (VInt 3)) as Hrating
    by (vm_compute; reflexivity).
  assert (details_attempt Fixture.site (length (requests_of []))
            (VStr Fixture.url_a) = Ok Fixture.details_bare) as Hattempt
    by (vm_compute; reflexivity).
  repeat (split; [assumption|]).
  exact (enriched_record_fields Fixture.site Fixture.row_a Fixture.details_bare
           _ _ _ _ [] [] Hurl Htitulo Hprecio Hrating Hattempt).
Defined.

(** * Further properties of the code *)

(** ** The records of the catalog *)

Lemma get_rating_number_range rating_class :
  0 ≤ get_rating_number rating_class ≤ 5.
Proof.
  unfold get_rating_number, ratings.
  destruct (decide (rating_class = "One")) as [->|]; [by vm_compute|].
  destruct (decide (rating_class = "Two")) as [->|]; [by vm_compute|].
  destruct (decide (rating_class = "Three")) as [->|]; [by vm_compute|].
  destruct (decide (rating_class = "Four")) as [->|]; [by vm_compute|].
  destruct (decide (rating_class = "Five")) as [->|]; [by vm_compute|].
  rewrite !lookup_insert_ne, lookup_singleton_ne by done. cbn. lia.
Qed.

(** The value under a key of a dictionary written out in full. *)
Ltac lookup_key :=
  repeat (rewrite lookup_insert_ne by done);
  first [apply lookup_insert_eq | apply lookup_singleton_eq].

Lemma book_record_schema book d : book_record book = Ok d → book_schema d.
Proof.
  intros H. book_record_steps H. injection H as <-. unfold book_schema.
  split; [rewrite !dom_insert_L, dom_singleton_L; by_evaluation|].
  split; [eexists; lookup_key|].
  split; [eexists; lookup_key|].
  split; [eexists; split; [lookup_key|apply get_rating_number_range]|].
  split; [eexists; lookup_key|].
  split; eexists; lookup_key.
Qed.

(** X1.  Whatever the site answers and whatever the page count, every
    record of the catalog has exactly the six columns, a float price, an
    integer rating from 0 to 5 and image and detail links that start with
    the address of the site. *)
Theorem scrape_books_schema (web : internet) (num_pages : Z) :
  Forall book_schema (scrape_books web num_pages []).1.
Proof.
  eapply Forall_impl; [apply scrape_books_records|].
  intros d [book Hbook]. by eapply book_record_schema.
Qed.

(** X2.  A page count of zero or less sends no request and never sleeps:
    the catalog is empty and the trace is left as it was. *)
Theorem scrape_books_no_pages (web : internet) (num_pages : Z) (tr : trace) :
  num_pages ≤ 0 → scrape_books web num_pages tr = ([], tr).
Proof.
  intros Hle. unfold scrape_books, range.
  rewrite seqZ_nil by lia. reflexivity.
Qed.

Lemma scrape_books_no_pages_witness :
  -3 ≤ 0 ∧ scrape_books Fixture.site (-3) [] = ([], []).
Proof. split; [lia | apply (scrape_books_no_pages Fixture.site (-3) []); lia]. Defined.

(** ** The trace of the walk *)

Lemma requests_of_page_events answer page :
  requests_of (page_events answer page) = [base_url page].
Proof. unfold page_events. by destruct (page_completes answer). Qed.

Lemma scrape_books_pages_trace web pages : ∀ all_books tr,
  (for_ pages (scrape_books_page web) all_books tr).2 =
    tr ++ concat (imap (λ i page,
                    page_events (web (length (requests_of tr) + i)%nat
                                     (base_url page)) page) pages).
Proof.
  induction pages as [|page pages IH]; intros all_books tr.
  - cbn. by rewrite app_nil_r.
  - rewrite for_cons, scrape_books_page_run. cbn zeta.
    rewrite IH, imap_cons. cbn [concat].
    rewrite Nat.add_0_r, <- app_assoc. do 2 f_equal.
    f_equal. apply imap_ext. intros i p _. unfold compose.
    rewrite requests_of_app, requests_of_page, length_app.
    replace (length (requests_of tr) + length [base_url page] + i)%nat
      with (length (requests_of tr) + S i)%nat by (cbn [length]; lia).
    done.
Qed.

Lemma scrape_books_snd web num_pages tr :
  (scrape_books web num_pages tr).2
  = (for_ (seqZ 1 num_pages) (scrape_books_page web) [] tr).2.
Proof.
  unfold scrape_books, range.
  replace (num_pages + 1 - 1) with num_pages by lia.
  by destruct (for_ _ _ _ _) as [[r all_books] tr'].
Qed.

(** X3.  The walk adds to the trace, page after page, the request for the
    page followed by one sleep of half a second when the [try] block of the
    page ran to its end, and by nothing when the request, the status or an
    item failed; it adds no other event. *)
Theorem scrape_books_trace (web : internet) (num_pages : Z) (tr : trace) :
  (scrape_books web num_pages tr).2 =
    tr ++ concat (imap (λ i page,
                    page_events (web (length (requests_of tr) + i)%nat
                                     (base_url page)) page)
                    (seqZ 1 num_pages)).
Proof. rewrite scrape_books_snd. apply scrape_books_pages_trace. Qed.

(** A walk keeps the delay exactly when every turn but the last one sleeps. *)
Lemma polite_page_turns (completes : nat → Z → bool) pages :
  polite_from true
    (concat (imap (λ i page,
               Get (base_url page)
                 :: (if completes i page then [Sleep (1 # 2)] else [])) pages))
    = true
  ↔ ∀ i page, pages !! i = Some page → (S i < length pages)%nat →
              completes i page = true.
Proof.
  revert completes. induction pages as [|page pages IH]; intros completes.
  - cbn. split; [|done]. intros _ i page Hi. by rewrite lookup_nil in Hi.
  - rewrite imap_cons. cbn [concat app polite_from andb].
    destruct (completes 0%nat page) eqn:Hpage; cbn [app polite_from].
    + rewrite (IH (completes ∘ S)). split.
      * intros H [|i] page' Hi Hlt; cbn in *; [by simplify_eq|].
        apply (H i page' Hi). lia.
      * intros H i page' Hi Hlt. apply (H (S i) page' Hi). cbn. lia.
    + destruct pages as [|page' pages].
      * cbn. split; [|done]. intros _ [|i] p Hi Hlt; cbn in *; lia.
      * rewrite imap_cons. unfold compose at 1.
        cbn [concat app polite_from andb]. split; [done|].
        intros H.
        assert (completes 0%nat page = true) as Hc
          by (apply (H 0%nat page); [done|cbn; lia]).
        congruence.
Qed.

(** X4.  The walk keeps the delay between any two of its requests exactly
    when every page but the last one ran its [try] block to the end: the
    request, the status or an item failing on an earlier page lets the next
    request follow at once. *)
Theorem scrape_books_polite_iff (web : internet) (num_pages : Z) :
  polite (scrape_books web num_pages []).2 = true
  ↔ ∀ page, 1 ≤ page < num_pages →
            page_completes (web (Z.to_nat (page - 1)) (base_url page)) = true.
Proof.
  rewrite scrape_books_snd, scrape_books_pages_trace. unfold polite, page_events.
  change (requests_of []) with (@nil string). cbn [app length Nat.add].
  rewrite (polite_page_turns (λ i page, page_completes (web i (base_url page)))).
  rewrite length_seqZ. split.
  - intros H page Hpage.
    apply (H (Z.to_nat (page - 1)) page); [|lia].
    apply lookup_seqZ. lia.
  - intros H i page Hi Hlt. apply lookup_seqZ in Hi as [-> Hi].
    replace i with (Z.to_nat (1 + Z.of_nat i - 1)) at 1 by lia.
    apply H. lia.
Qed.

(** ** The product table and the breadcrumb *)

Lemma table_rows_app rows1 rows2 product_info :
  table_rows (rows1 ++ rows2) product_info =
    match table_rows rows1 product_info with
    | Ok info => table_rows rows2 info
    | Raise e => Raise e
    end.
Proof.
  revert product_info. induction rows1 as [|row rows1 IH]; intros product_info.
  - reflexivity.
  - cbn. unfold res_bind, dot.
    destruct (Bs4.find row "th" None); [|done].
    destruct (Bs4.find row "td" None); [|done]. apply IH.
Qed.

Lemma table_rows_lookup_Some rows : ∀ product_info info key v,
  table_rows rows product_info = Ok info →
  product_info !! key = Some v →
  (∀ row th, row ∈ rows → Bs4.find row "th" None = Some th → Bs4.text th ≠ key) →
  info !! key = Some v.
Proof.
  induction rows as [|row rows IH]; intros product_info info key v Hrun Hkey Hrows.
  - cbn in Hrun. by simplify_eq.
  - cbn in Hrun. unfold res_bind, dot in Hrun.
    destruct (Bs4.find row "th" None) as [th|] eqn:Hth; [|done].
    destruct (Bs4.find row "td" None) as [td|]; [|done].
    eapply IH; [done| |].
    + rewrite lookup_insert_ne; [done|].
      eapply Hrows; [|done]. by left.
    + intros row' th' Hin. apply Hrows. by right.
Qed.

(** X5.  When several rows of the product table carry the same header, the
    value of the last of them is the one kept: it is what [product_info]
    holds under that header and what the details show for UPC, Tax and
    Availability. *)
Theorem product_info_last_row_wins (soup table : node) (rows1 rows2 : list node)
    (row th td : node) (info : gmap string string) :
  Bs4.find soup "table" (Some "table-striped") = Some table →
  Bs4.find_all table "tr" None = rows1 ++ row :: rows2 →
  Bs4.find row "th" None = Some th →
  Bs4.find row "td" None = Some td →
  (∀ row' th', row' ∈ rows2 → Bs4.find row' "th" None = Some th' →
               Bs4.text th' ≠ Bs4.text th) →
  product_info_of soup = Ok info →
  info !! Bs4.text th = Some (Bs4.text td)
  ∧ ∀ details, book_details soup = Ok details →
      (Bs4.text th = "UPC" → details !! "upc" = Some (VStr (Bs4.text td)))
      ∧ (Bs4.text th = "Tax" → details !! "impuestos" = Some (VStr (Bs4.text td)))
      ∧ (Bs4.text th = "Availability" →
         details !! "stock" = Some (VStr (Bs4.text td))).
Proof.
  intros Htable Hrows Hth Htd Hlast Hinfo.
  assert (info !! Bs4.text th = Some (Bs4.text td)) as Hkey.
  { unfold product_info_of in Hinfo. rewrite Htable, Hrows in Hinfo.
    rewrite table_rows_app in Hinfo.
    destruct (table_rows rows1 ∅) as [info1|]; [|done].
    cbn in Hinfo. unfold res_bind, dot in Hinfo. rewrite Hth, Htd in Hinfo.
    eapply table_rows_lookup_Some; [done|apply lookup_insert_eq|done]. }
  split; [done|]. intros details Hdetails.
  unfold book_details, res_bind in Hdetails.
  destruct (category_of soup); [|done]. destruct (description_of soup); [|done].
  rewrite Hinfo in Hdetails. injection Hdetails as <-.
  repeat split; intros Heq; rewrite Heq in Hkey; rewrite Hkey; lookup_key.
Qed.

Lemma product_info_last_row_wins_witness :
  product_info_of Fixture.detail_twice = Ok {[ "UPC" := "second" ]}
  ∧ ({[ "UPC" := "second" ]} : gmap string string)
      !! Bs4.text (Fixture.el "th" [] [NavigableString "UPC"])
    = Some (Bs4.text (Fixture.el "td" [] [NavigableString "second"]))
  ∧ ∀ details, book_details Fixture.detail_twice = Ok details →
      (Bs4.text (Fixture.el "th" [] [NavigableString "UPC"]) = "UPC" →
       details !! "upc"
       = Some (VStr (Bs4.text (Fixture.el "td" [] [NavigableString "second"]))))
      ∧ (Bs4.text (Fixture.el "th" [] [NavigableString "UPC"]) = "Tax" →
         details !! "impuestos"
         = Some (VStr (Bs4.text (Fixture.el "td" [] [NavigableString "second"]))))
      ∧ (Bs4.text (Fixture.el "th" [] [NavigableString "UPC"]) = "Availability" →
         details !! "stock"
         = Some (VStr (Bs4.text (Fixture.el "td" [] [NavigableString "second"])))).
Proof.
  assert (product_info_of Fixture.detail_twice = Ok {[ "UPC" := "second" ]})
    as Hinfo by (vm_compute; reflexivity).
  split; [exact Hinfo|].
  refine (product_info_last_row_wins Fixture.detail_twice
            (Fixture.el "table" [("class", "table table-striped")]
               [Fixture.upc_row "first"; Fixture.upc_row "second"])
            [Fixture.upc_row "first"] [] (Fixture.upc_row "second")
            (Fixture.el "th" [] [NavigableString "UPC"])
            (Fixture.el "td" [] [NavigableString "second"])
            {[ "UPC" := "second" ]} _ _ _ _ _ Hinfo).
  - vm_compute. reflexivity.
  - vm_compute. reflexivity.
  - vm_compute. reflexivity.
  - vm_compute. reflexivity.
  - intros row' th' Hin. by apply elem_of_nil in Hin.
Defined.

(** X6.  The category is the text of the third link of the breadcrumb.  A
    page without breadcrumb, or whose breadcrumb has fewer than three links,
    makes the whole detail fail; further links are ignored. *)
Theorem category_third_link (soup : node) :
  (Bs4.find soup "ul" (Some "breadcrumb") = None →
   book_details soup = Raise AttributeError)
  ∧ (∀ ul, Bs4.find soup "ul" (Some "breadcrumb") = Some ul →
       (length (Bs4.find_all ul "a" None) < 3)%nat →
       book_details soup = Raise IndexError)
  ∧ (∀ ul link details,
       Bs4.find soup "ul" (Some "breadcrumb") = Some ul →
       Bs4.find_all ul "a" None !! 2%nat = Some link →
       book_details soup = Ok details →
       details !! "categoria" = Some (VStr (Bs4.text link))).
Proof.
  unfold book_details, category_of, res_bind, dot, index.
  split; [by intros ->|]. split.
  - intros ul -> Hlen. by rewrite lookup_ge_None_2 by lia.
  - intros ul link details -> -> Hdetails.
    destruct (description_of soup); [|done].
    destruct (product_info_of soup); [|done].
    injection Hdetails as <-. lookup_key.
Qed.

Lemma category_third_link_witness :
  (∃ ul, Bs4.find Fixture.detail_short "ul" (Some "breadcrumb") = Some ul
         ∧ (length (Bs4.find_all ul "a" None) < 3)%nat)
  ∧ book_details Fixture.detail_short = Raise IndexError.
Proof.
  assert (∃ ul, Bs4.find Fixture.detail_short "ul" (Some "breadcrumb") = Some ul
                ∧ (length (Bs4.find_all ul "a" None) < 3)%nat) as Hul.
  { eexists. split; [vm_compute; reflexivity|]. vm_compute. lia. }
  split; [exact Hul|].
  destruct Hul as (ul & Hfind & Hlen).
  exact (proj1 (proj2 (category_third_link Fixture.detail_short)) ul Hfind Hlen).
Defined.

(** ** Error statuses *)

(** X7.  An answer whose status lies from 400 to 599 counts as a failed
    request whatever its body holds: the turn for a catalog page appends no
    record and does not sleep, and [scrape_book_details] returns [None]; in
    both cases the request is the only event. *)
Theorem error_status_is_failure (web : internet) (status : Z) (soup : node)
    (page : Z) (url : string) (all_books detailed_books : list dict) (tr : trace) :
  400 ≤ status < 600 →
  (web (length (requests_of tr)) (base_url page) = Ok (Response status soup) →
   scrape_books_page web page all_books tr
   = (Ok tt, all_books, tr ++ [Get (base_url page)]))
  ∧ (web (length (requests_of tr)) url = Ok (Response status soup) →
     scrape_book_details web (VStr url) detailed_books tr
     = (Ok None, detailed_books, tr ++ [Get url])).
Proof.
  intros Hstatus.
  assert (raise_for_status (Response status soup) = Raise (HTTPError status))
    as Hraise.
  { unfold raise_for_status. cbn [status_code].
    by rewrite bool_decide_eq_true_2 by done. }
  split; intros Hweb.
  - rewrite scrape_books_page_run. cbn zeta. rewrite Hweb.
    unfold page_records, page_completes. rewrite Hraise.
    by rewrite app_nil_r.
  - rewrite scrape_book_details_run.
    unfold details_attempt, res_bind. cbn [url_text].
    by rewrite Hweb, Hraise.
Qed.

Lemma error_status_is_failure_witness :
  400 ≤ 500 < 600
  ∧ Fixture.site_first_page_down (length (requests_of [])) (base_url 1)
    = Ok (Response 500 (Fixture.catalog_page []))
  ∧ scrape_books_page Fixture.site_first_page_down 1 [] []
    = (Ok tt, [], [] ++ [Get (base_url 1)]).
Proof.
  assert (Fixture.site_first_page_down (length (requests_of [])) (base_url 1)
          = Ok (Response 500 (Fixture.catalog_page []))) as Hweb
    by (vm_compute; reflexivity).
  split; [lia|]. split; [exact Hweb|].
  exact (proj1 (error_status_is_failure Fixture.site_first_page_down 500
                  (Fixture.catalog_page []) 1 "" [] [] [] ltac:(lia)) Hweb).
Defined.

(** ** Frames of records *)

(** A frame built from dictionaries that all have the same keys holds these
    dictionaries as its rows: nothing is filled in. *)
Lemma DataFrame_rows_same_keys (keys : gset string) (data : list dict) :
  Forall (λ d, dom d = keys) data → rows (Pd.DataFrame data) = data.
Proof.
  intros Hdata. unfold Pd.DataFrame. cbn [rows].
  assert (∀ key, key ∈ ⋃ (dom <$> data) → key ∈ keys) as Hcols.
  { intros key Hkey. apply elem_of_union_list in Hkey as (X & HX & Hkey).
    apply list_elem_of_fmap in HX as (d & -> & Hd).
    rewrite Forall_forall in Hdata. by rewrite <- (Hdata d Hd). }
  revert Hcols. generalize (⋃ (dom <$> data)). intros cols Hcols.
  induction Hdata as [|d data Hd _ IH]; [done|].
  cbn. f_equal; [|exact IH].
  unfold Pd.fill. apply map_eq. intros key.
  destruct (d !! key) as [v|] eqn:Hkey; [by apply lookup_union_Some_l|].
  rewrite lookup_union_r by done. apply lookup_gset_to_gmap_None.
  intros Hin. apply Hcols in Hin. rewrite <- Hd in Hin.
  apply elem_of_dom in Hin as [v Hv]. congruence.
Qed.

Lemma DataFrame_columns_same_keys (keys : gset string) (d : dict) (data : list dict) :
  Forall (λ d, dom d = keys) (d :: data) →
  columns (Pd.DataFrame (d :: data)) = keys.
Proof.
  intros Hdata. unfold Pd.DataFrame. cbn [columns].
  apply set_eq. intros key. rewrite elem_of_union_list. split.
  - intros (X & HX & Hkey). apply list_elem_of_fmap in HX as (d' & -> & Hd').
    rewrite Forall_forall in Hdata. by rewrite <- (Hdata d' Hd').
  - intros Hkey. exists (dom d). split; [cbn; left|].
    by rewrite (Forall_inv Hdata).
Qed.

Lemma book_schema_keys data :
  Forall book_schema data → Forall (λ d, dom d = record_keys) data.
Proof. intros H. eapply Forall_impl; [exact H|]. by intros d [Hdom _]. Qed.

(** The series of a column that holds floats, or integers, is numeric. *)
Lemma numbers_floats (xs : list pyfloat) :
  Series.numbers (VFloat <$> xs) = Ok xs.
Proof.
  induction xs as [|x xs IH]; [done|].
  cbn. unfold res_bind. cbn. by rewrite IH.
Qed.

Lemma numbers_ints (ns : list Z) :
  Series.numbers (VInt <$> ns) = Ok ((λ n, Fin (inject_Z n)) <$> ns).
Proof.
  induction ns as [|n ns IH]; [done|].
  cbn. unfold res_bind. cbn. by rewrite IH.
Qed.

Lemma precio_column data :
  Forall book_schema data →
  ∃ xs, omap (λ row : dict, row !! "precio") data = VFloat <$> xs
        ∧ length xs = length data.
Proof.
  induction 1 as [|d data Hd _ (xs & IH & Hlen)]; [by exists []|].
  destruct Hd as (_ & _ & [x Hx] & _).
  exists (x :: xs). cbn. rewrite Hx, IH. cbn. by rewrite Hlen.
Qed.

Lemma rating_column data :
  Forall book_schema data →
  ∃ ns, omap (λ row : dict, row !! "rating") data = VInt <$> ns.
Proof.
  induction 1 as [|d data Hd _ (ns & IH)]; [by exists []|].
  destruct Hd as (_ & _ & _ & (n & Hn & _) & _).
  exists (n :: ns). cbn. by rewrite Hn, IH.
Qed.

(** On a catalog that is not empty the statistics are computed. *)
Lemma main_stats_records data :
  data ≠ [] → Forall book_schema data →
  ∃ stats, main_stats (Pd.DataFrame data) = Ok stats.
Proof.
  intros Hne Hdata. destruct data as [|d data]; [done|].
  pose proof (book_schema_keys _ Hdata) as Hkeys.
  unfold main_stats, Pd.getitem.
  rewrite (DataFrame_columns_same_keys record_keys) by done.
  rewrite (DataFrame_rows_same_keys record_keys) by done.
  rewrite !bool_decide_eq_true_2 by by_evaluation.
  destruct (precio_column _ Hdata) as (xs & -> & _).
  destruct (rating_column _ Hdata) as (ns & ->).
  unfold res_bind, Series.mean, Series.min, Series.max, res_bind.
  rewrite numbers_floats, numbers_ints. eauto.
Qed.

(** ** A run of [main] *)

Lemma scrape_books_requests web num_pages :
  requests_of (scrape_books web num_pages []).2 = base_url <$> seqZ 1 num_pages.
Proof.
  rewrite scrape_books_snd.
  destruct (scrape_books_pages_run web (seqZ 1 num_pages) [] [])
    as (tr' & Hrun & Hreq).
  rewrite Hrun. cbn [snd]. by rewrite Hreq.
Qed.

Lemma files_of_app tr1 tr2 : files_of (tr1 ++ tr2) = files_of tr1 ++ files_of tr2.
Proof. apply omap_app. Qed.

Lemma files_of_page_turns (f : nat → Z → trace) pages :
  (∀ i page, files_of (f i page) = []) →
  files_of (concat (imap f pages)) = [].
Proof.
  revert f. induction pages as [|page pages IH]; intros f Hf; [done|].
  rewrite imap_cons. cbn [concat]. rewrite files_of_app, Hf, IH; [done|].
  intros i p. apply Hf.
Qed.

Lemma files_of_walk web num_pages : files_of (scrape_books web num_pages []).2 = [].
Proof.
  rewrite scrape_books_snd, scrape_books_pages_trace. cbn [app].
  apply files_of_page_turns. intros i page. unfold page_events.
  by destruct (page_completes _).
Qed.

Lemma files_of_row_events rows : files_of (concat (row_events <$> rows)) = [].
Proof.
  induction rows as [|row rows IH]; [done|].
  cbn [fmap list_fmap concat]. rewrite files_of_app, IH.
  unfold row_events. by destruct (row_request row).
Qed.

(** The outcomes of the rows are decided by the site, the number of the
    first request and the rows. *)
Lemma row_outcome_functional web k row out1 out2 :
  row_outcome web k row out1 → row_outcome web k row out2 → out1 = out2.
Proof.
  intros (url1 & Hurl1 & H1) (url2 & Hurl2 & H2).
  assert (url2 = url1) as -> by congruence.
  destruct out1 as [d1|], out2 as [d2|].
  - destruct H1 as (details1 & t1 & p1 & r1 & Ha1 & Ht1 & Hp1 & Hr1 & ->).
    destruct H2 as (details2 & t2 & p2 & r2 & Ha2 & Ht2 & Hp2 & Hr2 & ->).
    congruence.
  - destruct H1 as (details1 & t1 & p1 & r1 & Ha1 & _), H2 as (e & He).
    congruence.
  - destruct H2 as (details2 & t2 & p2 & r2 & Ha2 & _), H1 as (e & He).
    congruence.
  - done.
Qed.

Lemma row_outcomes_functional web k rows outs1 outs2 :
  row_outcomes web k rows outs1 → row_outcomes web k rows outs2 → outs1 = outs2.
Proof.
  intros H1. revert outs2.
  induction H1 as [k|k row out rows outs Hout _ IH]; intros outs2 H2;
    inversion H2; subst; [done|].
  f_equal; [by eapply row_outcome_functional|by apply IH].
Qed.

(** What a run of [main] returns and leaves in the trace, after the walk
    over the five pages. *)
Lemma main_run web :
  ∃ outs,
    row_outcomes web 5 (take 10 (scrape_books web 5 []).1) outs
    ∧ Forall (λ d, dom d = enriched_keys) (omap id outs)
    ∧ main web =
        match (scrape_books web 5 []).1 with
        | [] =>
            (Raise (KeyError "precio"),
             (scrape_books web 5 []).2 ++ [ToCsv "books_data.csv" []])
        | catalog =>
            (Ok tt,
             (scrape_books web 5 []).2
               ++ [ToCsv "books_data.csv" catalog]
               ++ concat (row_events <$> take 10 catalog)
               ++ match omap id outs with
                  | [] => []
                  | detailed => [ToCsv "books_detailed.csv" detailed]
                  end)
        end.
Proof.
  pose proof (scrape_books_records web 5) as Hrecords.
  pose proof (scrape_books_requests web 5) as Hrequests.
  assert (Forall book_schema (scrape_books web 5 []).1) as Hschema.
  { eapply Forall_impl; [exact Hrecords|].
    intros d [book Hbook]. by eapply book_record_schema. }
  unfold main, main_body, bind at 1.
  destruct (scrape_books web 5 []) as [catalog walk]. cbn [fst snd] in *.
  unfold bind at 1, to_csv, emit.
  rewrite (DataFrame_rows_same_keys record_keys) by by apply book_schema_keys.
  destruct catalog as [|d catalog].
  { exists []. split; [constructor|]. split; [constructor|].
    unfold bind, lift. by vm_compute. }
  destruct (main_stats_records (d :: catalog)) as [stats Hstats]; [done..|].
  unfold bind at 1, lift. rewrite Hstats.
  unfold bind at 1, main_detailed_books, Pd.head. cbn [rows].
  rewrite (DataFrame_rows_same_keys record_keys) by by apply book_schema_keys.
  assert (Forall book_row (take 10 (d :: catalog))) as Hrows.
  { apply Forall_take. eapply Forall_impl; [exact Hrecords|].
    intros d' [book Hbook]. by eapply book_record_book_row. }
  destruct (main_detail_rows_full web _ Hrows []
              (walk ++ [ToCsv "books_data.csv" (d :: catalog)]))
    as (outs & -> & Houts & Hdoms).
  rewrite requests_of_app, Hrequests, length_app, length_fmap, length_seqZ
    in Houts.
  exists outs. split; [exact Houts|]. split; [done|].
  unfold bind. cbn [app].
  destruct (omap id outs) as [|d' detailed] eqn:Hdetailed.
  - unfold ret. by rewrite app_nil_r, <- app_assoc.
  - rewrite (DataFrame_rows_same_keys enriched_keys) by done.
    by rewrite <- !app_assoc.
Qed.

(** X8.  A run of [main] ends normally exactly when the walk over the five
    pages collected at least one record; when it collected none the run
    ends with [KeyError] for the price column. *)
Theorem main_ends_normally_iff (web : internet) :
  ((main web).1 = Ok tt ↔ (scrape_books web 5 []).1 ≠ [])
  ∧ ((main web).1 = Raise (KeyError "precio") ↔ (scrape_books web 5 []).1 = []).
Proof.
  destruct (main_run web) as (outs & _ & _ & ->).
  destruct (scrape_books web 5 []).1 as [|d catalog]; cbn [fst].
  - split; split; done.
  - split; split; done.
Qed.

(** X9.  Whatever the site answers, [main] writes [books_data.csv] once,
    right after the walk and before anything can fail, with the catalog as
    it was collected.  The detail loop then gives each of the first ten
    records the outcome of its own attempt, the attempts being numbered from
    the sixth request of the run on.  [main] writes [books_detailed.csv]
    last, exactly when at least one of these attempts succeeded, and with
    the enriched records of the attempts that succeeded and nothing else, in
    the order of the catalog: from one to ten rows, each with the eight
    fields of an enriched record.  In between stand the events of the detail
    loop, and no other file is written. *)
Theorem main_files (web : internet) :
  ∃ outs,
    row_outcomes web 5 (take 10 (scrape_books web 5 []).1) outs
    ∧ (length (omap id outs) ≤ 10)%nat
    ∧ Forall (λ d, dom d = enriched_keys) (omap id outs)
    ∧ (main web).2 =
        (scrape_books web 5 []).2
          ++ ToCsv "books_data.csv" (scrape_books web 5 []).1
          :: concat (row_events <$> take 10 (scrape_books web 5 []).1)
          ++ match omap id outs with
             | [] => []
             | detailed => [ToCsv "books_detailed.csv" detailed]
             end
    ∧ files_of (main web).2 =
        ("books_data.csv", (scrape_books web 5 []).1)
          :: match omap id outs with
             | [] => []
             | detailed => [("books_detailed.csv", detailed)]
             end.
Proof.
  destruct (main_run web) as (outs & Houts & Hdoms & Hrun).
  exists outs. split; [done|].
  assert (length (omap id outs) ≤ 10)%nat as Hlen.
  { etrans; [apply length_omap_le|].
    rewrite (row_outcomes_length _ _ _ _ Houts), length_take. lia. }
  split; [done|]. split; [done|].
  assert ((main web).2 =
            (scrape_books web 5 []).2
              ++ ToCsv "books_data.csv" (scrape_books web 5 []).1
              :: concat (row_events <$> take 10 (scrape_books web 5 []).1)
              ++ match omap id outs with
                 | [] => []
                 | detailed => [ToCsv "books_detailed.csv" detailed]
                 end) as Htrace.
  { rewrite Hrun.
    destruct (scrape_books web 5 []).1 as [|d catalog] eqn:Hcatalog; cbn [snd].
    - by inversion Houts.
    - by destruct (omap id outs). }
  split; [done|].
  rewrite Htrace, files_of_app, files_of_walk. cbn [app].
  change (ToCsv "books_data.csv" (scrape_books web 5 []).1 :: ?l)
    with ([ToCsv "books_data.csv" (scrape_books web 5 []).1] ++ l).
  rewrite !files_of_app, files_of_row_events. by destruct (omap id outs).
Qed.

(** X10.  A run of [main] sends the five page requests and then at most one
    request for each of the first ten records: never more than fifteen
    requests. *)
Theorem main_requests (web : internet) :
  requests_of (main web).2 =
    (base_url <$> seqZ 1 5) ++ omap row_request (take 10 (scrape_books web 5 []).1)
  ∧ (length (requests_of (main web).2) ≤ 15)%nat.
Proof.
  assert (requests_of (main web).2 =
            (base_url <$> seqZ 1 5)
              ++ omap row_request (take 10 (scrape_books web 5 []).1)) as Hreq.
  { destruct (main_run web) as (outs & Houts & _ & ->).
    destruct (scrape_books web 5 []).1 as [|d catalog] eqn:Hcatalog; cbn [snd].
    - rewrite requests_of_app, scrape_books_requests. done.
    - rewrite !requests_of_app, scrape_books_requests, requests_of_row_events.
      assert (∀ path (rows : list dict), requests_of [ToCsv path rows] = [])
        as Hcsv by done.
      rewrite Hcsv. destruct (omap id outs); rewrite ?Hcsv; cbn [app];
        by rewrite ?app_nil_r. }
  split; [done|]. rewrite Hreq, length_app, length_fmap, length_seqZ.
  pose proof (length_omap_le row_request (take 10 (scrape_books web 5 []).1)).
  rewrite length_take in *. lia.
Qed.

(** X11.  In the detail loop every turn ends with a sleep, whether the
    attempt succeeded or failed: over book rows the loop adds, row after
    row, at most one request followed by one sleep, so that a sleep stands
    between any two of its requests. *)
Theorem main_detailed_books_polite (web : internet) (limit : nat)
    (df_books : DataFrame) (detailed_books : list dict) (tr : trace) :
  Forall book_row (rows df_books) →
  (main_detailed_books web limit df_books detailed_books tr).2
    = tr ++ concat (row_events <$> take limit (rows df_books))
  ∧ polite (concat (row_events <$> take limit (rows df_books))) = true.
Proof.
  intros Hrows. split.
  - unfold main_detailed_books, Pd.head. cbn [rows].
    by destruct (main_detail_rows_full web (take limit (rows df_books))
                   (Forall_take _ _ _ Hrows) detailed_books tr)
      as (outs & -> & _).
  - unfold polite. induction (take limit (rows df_books)) as [|row rows' IH];
      [done|].
    cbn [fmap list_fmap concat]. unfold row_events at 1.
    by destruct (row_request row).
Qed.

Lemma main_detailed_books_polite_witness :
  Forall book_row (rows (Pd.DataFrame (scrape_books Fixture.site 2 []).1))
  ∧ (main_detailed_books Fixture.site 2
       (Pd.DataFrame (scrape_books Fixture.site 2 []).1) [] []).2
    = [] ++ concat (row_events
                      <$> take 2 (rows (Pd.DataFrame (scrape_books Fixture.site 2 []).1)))
  ∧ polite (concat (row_events
                      <$> take 2 (rows (Pd.DataFrame (scrape_books Fixture.site 2 []).1))))
    = true.
Proof.
  assert (Forall book_row
            (rows (Pd.DataFrame (scrape_books Fixture.site 2 []).1))) as Hrows
    by apply DataFrame_book_rows, scrape_books_records.
  split; [exact Hrows|].
  exact (main_detailed_books_polite Fixture.site 2 _ [] [] Hrows).
Defined.

(** ** The statistics of a catalog *)

Lemma dropna_fins (qs : list Q) : Series.dropna (Fin <$> qs) = Fin <$> qs.
Proof. induction qs as [|q qs IH]; [done|]. cbn. by f_equal. Qed.

Lemma foldl_least (qs : list Q) : ∀ q,
  ∃ lo, foldl Series.least (Fin q) (Fin <$> qs) = Fin lo
        ∧ lo ∈ q :: qs ∧ (lo <= q)%Q ∧ Forall (λ x, (lo <= x)%Q) qs.
Proof.
  induction qs as [|a qs IH]; intros q.
  - exists q. split; [done|]. split; [by left|]. split; [apply Qle_refl|done].
  - cbn [fmap list_fmap foldl]. unfold Series.least at 2, Series.leb.
    destruct (Qle_bool q a) eqn:Hle.
    + apply Qle_bool_iff in Hle.
      destruct (IH q) as (lo & -> & Hin & Hq & Hall).
      exists lo. split; [done|]. split.
      { apply elem_of_cons in Hin as [->|Hin]; [by left|by right; right]. }
      split; [done|]. constructor; [|done]. by eapply Qle_trans.
    + assert (a <= q)%Q as Haq.
      { apply Qlt_le_weak, Qnot_le_lt. intros H%Qle_bool_iff. congruence. }
      destruct (IH a) as (lo & -> & Hin & Ha & Hall).
      exists lo. split; [done|]. split; [by right|].
      split; [by eapply Qle_trans|]. by constructor.
Qed.

Lemma foldl_greatest (qs : list Q) : ∀ q,
  ∃ hi, foldl Series.greatest (Fin q) (Fin <$> qs) = Fin hi
        ∧ hi ∈ q :: qs ∧ (q <= hi)%Q ∧ Forall (λ x, (x <= hi)%Q) qs.
Proof.
  induction qs as [|a qs IH]; intros q.
  - exists q. split; [done|]. split; [by left|]. split; [apply Qle_refl|done].
  - cbn [fmap list_fmap foldl]. unfold Series.greatest at 2, Series.leb.
    destruct (Qle_bool q a) eqn:Hle.
    + apply Qle_bool_iff in Hle.
      destruct (IH a) as (hi & -> & Hin & Ha & Hall).
      exists hi. split; [done|]. split; [by right|].
      split; [by eapply Qle_trans|]. by constructor.
    + assert (a <= q)%Q as Haq.
      { apply Qlt_le_weak, Qnot_le_lt. intros H%Qle_bool_iff. congruence. }
      destruct (IH q) as (hi & -> & Hin & Hq & Hall).
      exists hi. split; [done|]. split.
      { apply elem_of_cons in Hin as [->|Hin]; [by left|by right; right]. }
      split; [done|]. constructor; [|done]. by eapply Qle_trans.
Qed.

(** X12.  On a catalog that is not empty and whose prices are all finite,
    the statistics count the records, and the least and the greatest price
    they show are prices of the catalog that bound all the others. *)
Theorem main_stats_bounds (data : list dict) (qs : list Q) :
  data ≠ [] →
  Forall book_schema data →
  omap (λ row : dict, row !! "precio") data = VFloat <$> (Fin <$> qs) →
  ∃ stats lo hi,
    main_stats (Pd.DataFrame data) = Ok stats
    ∧ stats !! "total_libros" = Some (VInt (Z.of_nat (length data)))
    ∧ stats !! "precio_minimo" = Some (VFloat (Fin lo))
    ∧ lo ∈ qs ∧ Forall (λ q, (lo <= q)%Q) qs
    ∧ stats !! "precio_maximo" = Some (VFloat (Fin hi))
    ∧ hi ∈ qs ∧ Forall (λ q, (q <= hi)%Q) qs.
Proof.
  intros Hne Hdata Hprices. destruct data as [|d data]; [done|].
  pose proof (book_schema_keys _ Hdata) as Hkeys.
  destruct qs as [|q qs].
  { destruct (Forall_inv Hdata) as (_ & _ & [x Hx] & _).
    cbn in Hprices. by rewrite Hx in Hprices. }
  destruct (foldl_least qs q) as (lo & Hlo & Hlo_in & Hlo_q & Hlo_all).
  destruct (foldl_greatest qs q) as (hi & Hhi & Hhi_in & Hhi_q & Hhi_all).
  unfold main_stats, Pd.getitem, Pd.len.
  rewrite (DataFrame_columns_same_keys record_keys) by done.
  rewrite (DataFrame_rows_same_keys record_keys) by done.
  rewrite !bool_decide_eq_true_2 by by_evaluation.
  rewrite Hprices. destruct (rating_column _ Hdata) as (ns & ->).
  unfold res_bind, Series.mean, Series.min, Series.max, res_bind.
  rewrite numbers_floats, numbers_ints.
  unfold Series.reduce at 2 3. rewrite dropna_fins.
  cbn [fmap list_fmap]. rewrite Hlo, Hhi.
  eexists _, lo, hi. split; [done|].
  split; [lookup_key|]. split; [lookup_key|].
  split; [done|]. split; [by constructor|].
  split; [lookup_key|]. split; [done|]. by constructor.
Qed.

Lemma main_stats_bounds_witness :
  (scrape_books Fixture.site 2 []).1 ≠ []
  ∧ Forall book_schema (scrape_books Fixture.site 2 []).1
  ∧ omap (λ row : dict, row !! "precio") (scrape_books Fixture.site 2 []).1
    = VFloat <$> (Fin <$> [5177 # 100; 2687 # 50; 501 # 10]%Q)
  ∧ ∃ stats lo hi,
      main_stats (Pd.DataFrame (scrape_books Fixture.site 2 []).1) = Ok stats
      ∧ stats !! "total_libros"
        = Some (VInt (Z.of_nat (length (scrape_books Fixture.site 2 []).1)))
      ∧ stats !! "precio_minimo" = Some (VFloat (Fin lo))
      ∧ lo ∈ [5177 # 100; 2687 # 50; 501 # 10]%Q
      ∧ Forall (λ q, (lo <= q)%Q) [5177 # 100; 2687 # 50; 501 # 10]%Q
      ∧ stats !! "precio_maximo" = Some (VFloat (Fin hi))
      ∧ hi ∈ [5177 # 100; 2687 # 50; 501 # 10]%Q
      ∧ Forall (λ q, (q <= hi)%Q) [5177 # 100; 2687 # 50; 501 # 10]%Q.
Proof.
  assert ((scrape_books Fixture.site 2 []).1 ≠ []) as Hne
    by (vm_compute; discriminate).
  assert (Forall book_schema (scrape_books Fixture.site 2 []).1) as Hdata.
  { eapply Forall_impl; [apply scrape_books_records|].
    intros d [book Hbook]. by eapply book_record_schema. }
  assert (omap (λ row : dict, row !! "precio") (scrape_books Fixture.site 2 []).1
          = VFloat <$> (Fin <$> [5177 # 100; 2687 # 50; 501 # 10]%Q)) as Hprices
    by (vm_compute; reflexivity).
  split; [exact Hne|]. split; [exact Hdata|]. split; [exact Hprices|].
  exact (main_stats_bounds (scrape_books Fixture.site 2 []).1
           [5177 # 100; 2687 # 50; 501 # 10]%Q Hne Hdata Hprices).
Defined.

(** On the three records of the sample site the least price is the third
    and the greatest the second. *)
Example main_stats_sample_bounds :
  ∃ stats,
    main_stats (Pd.DataFrame (scrape_books Fixture.site 2 []).1) = Ok stats
    ∧ stats !! "total_libros" = Some (VInt 3)
    ∧ stats !! "precio_minimo" = Some (VFloat (Fin (501 # 10)))
    ∧ stats !! "precio_maximo" = Some (VFloat (Fin (2687 # 50))).
Proof. eexists. split; [vm_compute; reflexivity|]. by vm_compute. Qed.

(** ** The links of a record *)

Lemma replace_go_parent s :
  Str.replace_go "../" "" O ("../" +:+ s) = Str.replace_go "../" "" O s.
Proof.
  change ("../" +:+ s) with (String "." (String "." (String "/" s))).
  assert (String.prefix "../" (String "." (String "." (String "/" s))) = true)
    as Hprefix by (cbn; apply prefix_empty).
  cbn [Str.replace_go]. rewrite Hprefix. reflexivity.
Qed.

Lemma replace_climbing k path :
  occurs_in "../" path = false → Str.replace (climbing k path) "../" "" = path.
Proof.
  intros Habsent. unfold Str.replace. induction k as [|k IH].
  - by apply replace_go_absent.
  - cbn [climbing]. by rewrite replace_go_parent.
Qed.

(** Two readings of the same thing give the same value. *)
Ltac same_values :=
  repeat match goal with
         | H : Some _ = Some _ |- _ => injection H as ?; subst
         | H1 : ?x = Some ?a, H2 : ?x = Some ?b |- _ =>
             assert (b = a) by congruence; subst b; clear H2
         | H1 : ?x = Ok ?a, H2 : ?x = Ok ?b |- _ =>
             assert (a = b) by congruence; subst a; clear H1
         end.

(** X13.  The links of a record are the links of the item with their
    leading [../] steps taken off and the address of the site put in front:
    an image source and a title link that climb any number of directories
    and have no [../] further on give the same absolute links as the bare
    paths. *)
Theorem record_links_absolute (book : node) (d : dict) :
  book_record book = Ok d →
  (∀ img k path,
     Bs4.find book "img" None = Some img →
     Bs4.getitem img "src" = Ok (climbing k path) →
     occurs_in "../" path = false →
     d !! "imagen_url" = Some (VStr ("http://books.toscrape.com/" +:+ path)))
  ∧ (∀ h3 a k path,
       Bs4.find book "h3" None = Some h3 →
       Bs4.find h3 "a" None = Some a →
       Bs4.getitem a "href" = Ok (climbing k path) →
       occurs_in "../" path = false →
       d !! "libro_url"
       = Some (VStr ("http://books.toscrape.com/catalogue/" +:+ path))).
Proof.
  intros H. split.
  - intros img k path Himg Hsrc Habsent.
    book_record_steps H. injection H as <-.
    same_values. rewrite replace_climbing by done. lookup_key.
  - intros h3 a k path Hh3 Ha Hhref Habsent.
    book_record_steps H. injection H as <-.
    same_values. rewrite replace_climbing by done. lookup_key.
Qed.

Lemma record_links_absolute_witness :
  book_record Fixture.book_a = Ok Fixture.row_a
  ∧ Bs4.find Fixture.book_a "img" None
    = Some (Fixture.el "img" [("src", "../media/cache/2c/da/a.jpg");
                              ("alt", "A Light in the Attic");
                              ("class", "thumbnail")] [])
  ∧ Bs4.getitem (Fixture.el "img" [("src", "../media/cache/2c/da/a.jpg");
                                   ("alt", "A Light in the Attic");
                                   ("class", "thumbnail")] []) "src"
    = Ok (climbing 1 "media/cache/2c/da/a.jpg")
  ∧ occurs_in "../" "media/cache/2c/da/a.jpg" = false
  ∧ Fixture.row_a !! "imagen_url"
    = Some (VStr ("http://books.toscrape.com/" +:+ "media/cache/2c/da/a.jpg")).
Proof.
  assert (book_record Fixture.book_a = Ok Fixture.row_a) as Hrecord
    by (vm_compute; reflexivity).
  assert (Bs4.find Fixture.book_a "img" None
          = Some (Fixture.el "img" [("src", "../media/cache/2c/da/a.jpg");
                                    ("alt", "A Light in the Attic");
                                    ("class", "thumbnail")] [])) as Himg
    by (vm_compute; reflexivity).
  assert (Bs4.getitem (Fixture.el "img" [("src", "../media/cache/2c/da/a.jpg");
                                         ("alt", "A Light in the Attic");
                                         ("class", "thumbnail")] []) "src"
          = Ok (climbing 1 "media/cache/2c/da/a.jpg")) as Hsrc
    by (vm_compute; reflexivity).
  assert (occurs_in "../" "media/cache/2c/da/a.jpg" = false) as Habsent
    by (vm_compute; reflexivity).
  repeat (split; [assumption|]).
  exact (proj1 (record_links_absolute Fixture.book_a Fixture.row_a Hrecord)
           _ 1%nat _ Himg Hsrc Habsent).
Defined.

(** ** What an item needs to become a record *)

(** X14.  The rating of a record is read from the second class of the
    rating paragraph of the item, whatever the first one is; a rating
    paragraph with fewer than two classes is out of bounds there and the
    item yields no record. *)
Theorem rating_second_class (book : node) :
  (∀ d, book_record book = Ok d →
     ∃ p classes rating_class,
       Bs4.find book "p" (Some "star-rating") = Some p
       ∧ Bs4.getclass p = Ok classes
       ∧ classes !! 1%nat = Some rating_class
       ∧ d !! "rating" = Some (VInt (get_rating_number rating_class)))
  ∧ (∀ p classes,
       Bs4.find book "p" (Some "star-rating") = Some p →
       Bs4.getclass p = Ok classes →
       (length classes < 2)%nat →
       record_of book = None).
Proof.
  split.
  - intros d H. book_record_steps H. injection H as <-.
    eexists _, _, _. repeat (split; [done|]). lookup_key.
  - intros p classes Hp Hclasses Hlen.
    unfold record_of, book_record, res_bind, dot, subscript, index.
    rewrite Hp, Hclasses, (lookup_ge_None_2 classes 1) by lia.
    repeat match goal with
           | |- context [match ?x with _ => _ end] =>
               lazymatch x with
               | context [match _ with _ => _ end] => fail
               | _ => destruct x
               end
           end; done.
Qed.

Lemma rating_second_class_witness :
  Bs4.find Fixture.book_unrated "p" (Some "star-rating")
    = Some (Fixture.el "p" [("class", "star-rating")]
              [ Fixture.el "i" [("class", "icon-star")] [] ])
  ∧ Bs4.getclass (Fixture.el "p" [("class", "star-rating")]
                    [ Fixture.el "i" [("class", "icon-star")] [] ])
    = Ok ["star-rating"]
  ∧ (length ["star-rating"] < 2)%nat
  ∧ record_of Fixture.book_unrated = None.
Proof.
  assert (Bs4.find Fixture.book_unrated "p" (Some "star-rating")
          = Some (Fixture.el "p" [("class", "star-rating")]
                    [ Fixture.el "i" [("class", "icon-star")] [] ])) as Hp
    by (vm_compute; reflexivity).
  assert (Bs4.getclass (Fixture.el "p" [("class", "star-rating")]
                          [ Fixture.el "i" [("class", "icon-star")] [] ])
          = Ok ["star-rating"]) as Hclasses by (vm_compute; reflexivity).
  assert (length ["star-rating"] < 2)%nat as Hlen by (cbn; lia).
  repeat (split; [assumption|]).
  exact (proj2 (rating_second_class Fixture.book_unrated) _ _ Hp Hclasses Hlen).
Defined.

(** X15.  An item that lacks its title heading, its price paragraph, its
    rating paragraph, its availability paragraph or its image yields no
    record. *)
Theorem record_needs_every_part (book : node) :
  Bs4.find book "h3" None = None
  ∨ Bs4.find book "p" (Some "price_color") = None
  ∨ Bs4.find book "p" (Some "star-rating") = None
  ∨ Bs4.find book "p" (Some "instock availability") = None
  ∨ Bs4.find book "img" None = None →
  record_of book = None.
Proof.
  intros Hmissing.
  destruct (book_record book) as [d|e] eqn:H;
    [|unfold record_of; by rewrite H].
  exfalso. book_record_steps H.
  destruct Hmissing as [?|[?|[?|[?|?]]]]; congruence.
Qed.

Lemma record_needs_every_part_witness :
  (Bs4.find Fixture.book_bare "h3" None = None
   ∨ Bs4.find Fixture.book_bare "p" (Some "price_color") = None
   ∨ Bs4.find Fixture.book_bare "p" (Some "star-rating") = None
   ∨ Bs4.find Fixture.book_bare "p" (Some "instock availability") = None
   ∨ Bs4.find Fixture.book_bare "img" None = None)
  ∧ record_of Fixture.book_bare = None.
Proof.
  assert (Bs4.find Fixture.book_bare "h3" None = None
          ∨ Bs4.find Fixture.book_bare "p" (Some "price_color") = None
          ∨ Bs4.find Fixture.book_bare "p" (Some "star-rating") = None
          ∨ Bs4.find Fixture.book_bare "p" (Some "instock availability") = None
          ∨ Bs4.find Fixture.book_bare "img" None = None) as Hmissing
    by (right; left; vm_compute; reflexivity).
  split; [exact Hmissing|].
  exact (record_needs_every_part Fixture.book_bare Hmissing).
Defined.
